(** * Shape-level verification of the feature-pyramid assembly in [fpn.py]

    The numeric kernels (convolution, normalisation, bilinear resampling) are
    opaque collaborators; what [fpn.py] itself decides is how stages are wired
    and which shapes flow between them.  Stages are therefore embedded as a
    syntax tree mirroring the [nn.Module] objects the constructors build, and
    [forward] interprets a tree over shape descriptors. *)

From Stdlib Require Import String ZArith List Bool Lia.
From Equations Require Import Equations.
Import ListNotations.
Open Scope Z_scope.
Set Warnings "-register-all".

(** ** Shape descriptors, values and results *)

(** A shape descriptor (batch, channels, height, width), i.e. the [torch.Size]
    of a 4-d feature map. *)
Record Shape : Type := mkShape {
  batch : Z;
  channels : Z;
  height : Z;
  width : Z
}.

(** [s[-2:]] *)
Definition spatial (s : Shape) : Z * Z := (height s, width s).

Definition shape_eqb (a b : Shape) : bool :=
  (batch a =? batch b) && (channels a =? channels b)
  && (height a =? height b) && (width a =? width b).

(** What flows between stages: one Array (seen through its shape) or a Stream
    (a Python tuple or list of values). *)
Inductive Value : Type :=
| Tensor (s : Shape)
| Stream (vs : list Value).

Inductive Error : Type :=
| ArityError
| ShapeError
| TypeError
| IndexError
| ConstructorError.

Inductive Result (A : Type) : Type :=
| Ok (a : A)
| Err (e : Error).
Arguments Ok {A} a.
Arguments Err {A} e.

Definition rbind {A B : Type} (r : Result A) (k : A -> Result B) : Result B :=
  match r with
  | Ok a => k a
  | Err e => Err e
  end.

Notation "x <- r ;; k" := (rbind r (fun x => k))
  (at level 61, r at next level, right associativity).

(** The model-zoo network behind [EfficientNetFeatureMapsExtractor]: an
    external collaborator, known only through the shapes of the endpoints
    [extract_endpoints] yields, in order. *)
Record EffNet : Type := mkEffNet {
  extract_endpoints : Shape -> Result (list Shape)
}.

(** ** Stages *)

(** One constructor per module class that [fpn.py] instantiates.  The
    arguments are the configuration the source passes.  [Opaque] stands for a
    backbone assembled from networks of an external model zoo, known only
    through the shapes it maps to shapes. *)
Inductive Stage : Type :=
| Conv2d (in_channels out_channels kernel_size padding : Z)
| GroupNorm (num_groups num_channels : Z)
| ReLU
| Interpolate (size : option (Z * Z)) (scale_factor : option Z)
| Residual (layer : Stage)
| Reverse
| AddTensors
| AddAcross
| SelectOne (idx : nat)
| SplitTensor (size_or_sizes : list Z)
| Parallel (branches : list Stage)
| Sequential (layers : list Stage)
| SequentialMultiInputMultiOutput (stages : list Stage)
| EfficientNetFeatureMapsExtractor (effnet : EffNet)
| Opaque (f : Value -> Result Value).

(** Elementwise addition of two Arrays: defined on identical shapes only. *)
Definition add_shapes (a b : Shape) : Result Shape :=
  if shape_eqb a b then Ok a else Err ShapeError.

Definition add_values (x y : Value) : Result Value :=
  match x, y with
  | Tensor a, Tensor b => s <- add_shapes a b ;; Ok (Tensor s)
  | _, _ => Err TypeError
  end.

Fixpoint sum_values (acc : Value) (vs : list Value) : Result Value :=
  match vs with
  | [] => Ok acc
  | v :: vs' => acc' <- add_values acc v ;; sum_values acc' vs'
  end.

Fixpoint add_across (xs ys : list Value) : Result (list Value) :=
  match xs, ys with
  | [], [] => Ok []
  | x :: xs', y :: ys' =>
      z <- add_values x y ;; zs <- add_across xs' ys' ;; Ok (z :: zs)
  | _, _ => Err ArityError
  end.

Definition with_channels (c : Z) (s : Shape) : Shape :=
  mkShape (batch s) c (height s) (width s).

Definition with_spatial (hw : Z * Z) (s : Shape) : Shape :=
  mkShape (batch s) (channels s) (fst hw) (snd hw).

Fixpoint sum_list (l : list Z) : Z :=
  match l with
  | [] => 0
  | k :: l' => k + sum_list l'
  end.

(** *** PyTorch's own layers

    Their shape contracts are the documented ones, for stride 1 and no
    dilation as everywhere in [fpn.py].  PyTorch refuses a layer either when
    it is built or when it is applied.  The functions below say when an
    application returns: they make every check, also those PyTorch has made
    before, when the layer was built; [constructible], further down, says
    which layers can be built at all. *)

(** [nn.Conv2d(in_c, out_c, kernel_size=k, padding=p)] applied: the channel
    counts and the kernel size are positive, the padding is not negative,
    the input has [in_c] channels and the output is not empty. *)
Definition Conv2d_forward (in_c out_c k p : Z) (x : Value) : Result Value :=
  match x with
  | Tensor s =>
      let h := height s + 2 * p - k + 1 in
      let w := width s + 2 * p - k + 1 in
      if (0 <? in_c) && (0 <? out_c) && (0 <? k) && (0 <=? p)
         && (channels s =? in_c) && (0 <? h) && (0 <? w)
      then Ok (Tensor (mkShape (batch s) out_c h w))
      else Err ShapeError
  | Stream _ => Err TypeError
  end.

(** [nn.GroupNorm(num_channels=c, num_groups=g)] applied: the group count
    is positive and divides the channel count, which is positive and that of
    the input. *)
Definition GroupNorm_forward (g c : Z) (x : Value) : Result Value :=
  match x with
  | Tensor s =>
      if (0 <? g) && (0 <? c) && (c mod g =? 0) && (channels s =? c)
      then Ok (Tensor s)
      else Err ShapeError
  | Stream _ => Err TypeError
  end.

(** [nn.ReLU(inplace=True)] *)
Definition ReLU_forward (x : Value) : Result Value :=
  match x with
  | Tensor s => Ok (Tensor s)
  | Stream _ => Err TypeError
  end.

(** *** The layers module *)

(** Modelled from the spec: Interpolate (layers module, not under src/).
    "Configured with either a target (height, width) or a scale factor, and
    a resampling mode (bilinear, with aligned corners). Input: one Array.
    Output: one Array resampled to the target size, same batch/channel
    count."  Resampling is between non-empty grids: the spatial sizes of the
    input and of the output are positive. *)
Definition Interpolate_forward (size : option (Z * Z))
    (scale_factor : option Z) (x : Value) : Result Value :=
  match x with
  | Tensor s =>
      let resample (hw : Z * Z) :=
        if (0 <? height s) && (0 <? width s) && (0 <? fst hw) && (0 <? snd hw)
        then Ok (Tensor (with_spatial hw s))
        else Err ShapeError in
      match size, scale_factor with
      | Some hw, _ => resample hw
      | None, Some k => resample (height s * k, width s * k)
      | None, None => Err TypeError
      end
  | Stream _ => Err TypeError
  end.

(** Modelled from the spec: Reverse (layers module, not under src/).
    "Input: Stream of length N. Output: the same Stream with element order
    reversed." *)
Definition Reverse_forward (x : Value) : Result Value :=
  match x with
  | Stream vs => Ok (Stream (rev vs))
  | Tensor _ => Err TypeError
  end.

(** Modelled from the spec: AddTensors (layers module, not under src/).
    "Input: Stream of Arrays, all identical shape. Output: one Array, the
    elementwise sum. Errors on shape mismatch."  An empty Stream has no
    Array to return. *)
Definition AddTensors_forward (x : Value) : Result Value :=
  match x with
  | Stream (v :: vs) => sum_values v vs
  | Stream [] => Err ArityError
  | Tensor _ => Err TypeError
  end.

(** Modelled from the spec: AddAcross (layers module, not under src/).
    "Input: two co-indexed Streams of equal length. Output: one Stream,
    elementwise pairwise sums, same length. Errors on length or shape
    mismatch." *)
Definition AddAcross_forward (x : Value) : Result Value :=
  match x with
  | Stream [Stream xs; Stream ys] => zs <- add_across xs ys ;; Ok (Stream zs)
  | _ => Err TypeError
  end.

(** Modelled from the spec: SelectOne (layers module, not under src/).
    "Input: Stream of length N. Configured with an index k. Output: the
    single Array at position k. Errors if k out of range." *)
Definition SelectOne_forward (idx : nat) (x : Value) : Result Value :=
  match x with
  | Stream vs =>
      match nth_error vs idx with
      | Some v => Ok v
      | None => Err IndexError
      end
  | Tensor _ => Err TypeError
  end.

(** Modelled from the spec: SplitTensor (layers module, not under src/),
    along the channel axis ([dim=1], its only use in [fpn.py]).  "Input: one
    Array with a channel axis of size C. Configured with a partition of C
    into contiguous chunk sizes. Output: a Stream of Arrays, each holding
    one chunk, same relative channel order as input. Errors if chunk sizes
    do not sum to C." *)
Definition SplitTensor_forward (sizes : list Z) (x : Value) : Result Value :=
  match x with
  | Tensor s =>
      if forallb (fun k => 0 <=? k) sizes && (sum_list sizes =? channels s)
      then Ok (Stream (map (fun k => Tensor (with_channels k s)) sizes))
      else Err ShapeError
  | Stream _ => Err TypeError
  end.

(** [EfficientNetFeatureMapsExtractor.forward], lines 150-152. *)
Definition EfficientNetFeatureMapsExtractor_forward (effnet : EffNet)
    (x : Value) : Result Value :=
  match x with
  | Tensor s =>
      feats <- extract_endpoints effnet s ;; Ok (Stream (map Tensor feats))
  | Stream _ => Err TypeError
  end.

(** *** Stages that call other stages *)

Section Containers.
Variable call : Stage -> Value -> Result Value.

Fixpoint zip_apply (ms : list Stage) (xs : list Value)
  : Result (list Value) :=
  match ms, xs with
  | m :: ms', x :: xs' =>
      y <- call m x ;; ys <- zip_apply ms' xs' ;; Ok (y :: ys)
  | _, _ => Ok []
  end.

(** [nn.Sequential.forward]: each layer is applied to the output of the one
    before. *)
Fixpoint chain_apply (ms : list Stage) (x : Value) : Result Value :=
  match ms with
  | [] => Ok x
  | m :: ms' => y <- call m x ;; chain_apply ms' y
  end.

(** The steps of the chained fold: each remaining stage merges the next
    external input with the accumulator, being handed the pair
    (external input, accumulator) as a two-element Stream; its result is the
    new accumulator and the next output. *)
Fixpoint fold_apply (ms : list Stage) (acc : Value) (rest : list Value)
  {struct ms} : Result (list Value) :=
  match ms with
  | [] => Ok []
  | m :: ms' =>
      match rest with
      | [] => Err ArityError
      | x :: rest' =>
          acc' <- call m (Stream [x; acc]) ;;
          outs <- fold_apply ms' acc' rest' ;;
          Ok (acc' :: outs)
      end
  end.

(** Modelled from the spec: Residual (layers module, not under src/).
    "Wraps one Stage f. Input: one Array x. Output: x + f(x), elementwise,
    requiring f(x) to already match x's shape (no implicit resample inside
    Residual itself)."  As a merge stage of SequentialMultiInputMultiOutput
    it is handed the external input together with the accumulator and
    follows the policy the spec gives for that container ("resample the
    transformed accumulator to match input[i]'s spatial shape, then add
    elementwise"): the wrapped stage transforms the accumulator and the
    result is added to the external input, again without any resampling by
    Residual itself. *)
Definition Residual_forward (f : Stage) (x : Value) : Result Value :=
  match x with
  | Tensor s => y <- call f (Tensor s) ;; add_values (Tensor s) y
  | Stream [Tensor s; acc] => y <- call f acc ;; add_values (Tensor s) y
  | Stream _ => Err TypeError
  end.

(** Modelled from the spec: Parallel (containers module, not under src/).
    "Given an input Stream of length N, produces an output Stream of length
    N where output[i] = branch[i](input[i]) ... if only a single Array is
    supplied where a Stream of length N is required, it is an input-arity
    error." *)
Definition Parallel_forward (ms : list Stage) (x : Value) : Result Value :=
  match x with
  | Stream xs =>
      if Nat.eqb (length xs) (length ms)
      then ys <- zip_apply ms xs ;; Ok (Stream ys)
      else Err ArityError
  | Tensor _ => Err ArityError
  end.

(** Modelled from the spec: SequentialMultiInputMultiOutput (containers
    module, not under src/).  "Constructed from an ordered sequence of N
    Stages. Called with an external input Stream of length N. Maintains an
    accumulator ... Produces an output Stream of length N ... the
    accumulator is advanced by applying [a] stage ... to the current
    accumulator and combining the result with external input[i] -- the exact
    combination policy ... is delegated to the Stage itself ...; output[i]
    is set to the new accumulator value."

    The two calls that [fpn.py] makes settle what these sentences leave open
    or number differently.
    - Line 175 makes the stem of a ResNet stage 0, and
      [nn.Sequential(AddTensors(), layer)] each later stage.  The stem is a
      stage of one Array: stage 0 is applied to the first external input
      alone, and its result starts the accumulator and is output 0.  Every
      later stage is handed the pair (external input, accumulator).
    - Lines 20-24 build one stage per level and size the stage at position i
      to level i: stage i merges external input i.  Under this pairing, and
      not under one shifted by a position, the fold evaluates on a pyramid
      of distinct level sizes, as the spec's guarantee "each output[i] has
      the same spatial shape as external input[i]" and its end-to-end
      scenario 1 require.
    - Line 183 calls a container of five stages on six inputs.  A Stream of
      N + 1 elements is accepted as one of N elements is; the element that
      has no stage is not consumed.  Every other length is the spec's
      call-time arity error. *)
Definition SequentialMultiInputMultiOutput_forward (ms : list Stage)
    (x : Value) : Result Value :=
  match x with
  | Stream xs =>
      if Nat.eqb (length xs) (length ms)
         || Nat.eqb (length xs) (S (length ms))
      then match ms, xs with
           | m0 :: ms', x0 :: rest =>
               acc <- call m0 x0 ;;
               outs <- fold_apply ms' acc rest ;;
               Ok (Stream (acc :: outs))
           | _, _ => Ok (Stream [])
           end
      else Err ArityError
  | Tensor _ => Err ArityError
  end.
End Containers.

(** Evaluation of a stage on a value, at the level of shapes. *)
Fixpoint forward (m : Stage) (x : Value) {struct m} : Result Value :=
  match m with
  | Conv2d in_c out_c k p => Conv2d_forward in_c out_c k p x
  | GroupNorm g c => GroupNorm_forward g c x
  | ReLU => ReLU_forward x
  | Interpolate size scale_factor => Interpolate_forward size scale_factor x
  | Residual f => Residual_forward forward f x
  | Reverse => Reverse_forward x
  | AddTensors => AddTensors_forward x
  | AddAcross => AddAcross_forward x
  | SelectOne idx => SelectOne_forward idx x
  | SplitTensor sizes => SplitTensor_forward sizes x
  | Parallel ms => Parallel_forward forward ms x
  | Sequential ms => chain_apply forward ms x
  | SequentialMultiInputMultiOutput ms =>
      SequentialMultiInputMultiOutput_forward forward ms x
  | EfficientNetFeatureMapsExtractor effnet =>
      EfficientNetFeatureMapsExtractor_forward effnet x
  | Opaque f => f x
  end.

(** ** What the layer constructors accept *)

(** A tree of modules exists once every constructor in it has returned.
    [nn.Conv2d] allocates a weight of [out_c] x [in_c] x [k] x [k] and
    raises on a negative extent (a layer with no channels is built, and
    fails when it is applied); [nn.GroupNorm] raises unless
    [num_channels % num_groups == 0] (a ZeroDivisionError for no groups, a
    ValueError otherwise) and allocates [num_channels] weights.  The
    modules of the containers and layers modules only store their
    arguments. *)
Fixpoint constructible (m : Stage) : bool :=
  match m with
  | Conv2d in_c out_c k p => (0 <=? in_c) && (0 <=? out_c) && (0 <=? k)
  | GroupNorm g c => negb (g =? 0) && (c mod g =? 0) && (0 <=? c)
  | Residual f => constructible f
  | Parallel ms => forallb constructible ms
  | Sequential ms => forallb constructible ms
  | SequentialMultiInputMultiOutput ms => forallb constructible ms
  | _ => true
  end.

(** The outcome of the constructor calls that assemble the tree [m]. *)
Definition construct (m : Stage) : Result Stage :=
  if constructible m then Ok m else Err ConstructorError.

(** ** The pyramid heads of [fpn.py] *)

(** [class FPN(nn.Sequential)], lines 11-38: the tree of modules that
    [__init__] assembles. *)
Definition FPN (in_feats_shapes : list Shape) (hidden_channels out_channels : Z)
  : Stage :=
  let in_convs :=
    Parallel (map (fun s => Conv2d (channels s) hidden_channels 1 0)
                  (rev in_feats_shapes)) in
  let upsample_and_add :=
    SequentialMultiInputMultiOutput
      (map (fun s => Residual (Interpolate (Some (spatial s)) None))
           (rev in_feats_shapes)) in
  let out_convs :=
    Parallel (map (fun _ => Conv2d hidden_channels out_channels 3 1)
                  (rev in_feats_shapes)) in
  Sequential [Reverse; in_convs; upsample_and_add; out_convs; Reverse].

(** [PanopticFPN._upsample_once], lines 87-107. *)
Definition _upsample_once (in_c : Z) (out_c : option Z) (scale : Z)
    (size : option (Z * Z)) (g : Z) : Stage :=
  let out_c := match out_c with None => in_c | Some c => c end in
  let layers := [Conv2d in_c out_c 3 1; GroupNorm g out_c; ReLU] in
  if scale =? 1 then Sequential layers
  else
    let interp :=
      match size with
      | None => Interpolate None (Some scale)
      | Some sz => Interpolate (Some sz) None
      end in
    Sequential (layers ++ [interp]).

(** [PanopticFPN._upsample_feat], lines 77-85. *)
Definition _upsample_feat (c num_up : Z) (size : Z * Z) (g : Z) : Stage :=
  if num_up =? 0 then _upsample_once c (Some (c / 2)) 1 None g
  else
    let blocks :=
      repeat (_upsample_once c None 2 None g) (Z.to_nat (num_up - 1)) in
    let blocks := blocks ++ [_upsample_once c (Some (c / 2)) 2 (Some size) g] in
    Sequential blocks.

(** [PanopticFPN._make_upsamplers], lines 71-75. *)
Definition _make_upsamplers (c : Z) (size : Z * Z) (num_ups : list Z) (g : Z)
  : Stage :=
  Parallel (map (fun u => _upsample_feat c u size g) num_ups).

(** [class PanopticFPN(nn.Sequential)], lines 41-69.  [in_feats_shapes[0]]
    raises on an empty list (whose [in_convs] holds no layer); over a list
    that is not empty the layer constructors decide. *)
Definition PanopticFPN (in_feats_shapes : list Shape)
    (hidden_channels out_channels : Z) (num_ups : option (list Z))
    (num_groups_for_norm : Z) : Result Stage :=
  let num_ups :=
    match num_ups with
    | None => map Z.of_nat (seq 0 (length in_feats_shapes))
    | Some l => l
    end in
  let in_convs :=
    Parallel (map (fun s => Conv2d (channels s) hidden_channels 1 0)
                  in_feats_shapes) in
  match in_feats_shapes with
  | [] => Err IndexError
  | s0 :: _ =>
      let upsamplers :=
        _make_upsamplers hidden_channels (spatial s0) num_ups
                         num_groups_for_norm in
      construct (Sequential [in_convs; upsamplers; AddTensors;
                             Conv2d (hidden_channels / 2) out_channels 1 0])
  end.

(** [class PANetFPN(nn.Sequential)], lines 110-133: the tree of modules
    that [__init__] assembles. *)
Definition PANetFPN (in_feats_shapes : list Shape)
    (hidden_channels out_channels : Z) : Stage :=
  let fpn1 := FPN in_feats_shapes hidden_channels hidden_channels in
  let in_feats_shapes :=
    map (fun s => mkShape (batch s) hidden_channels (height s) (width s))
        in_feats_shapes in
  let fpn2 := FPN (rev in_feats_shapes) hidden_channels out_channels in
  Sequential [fpn1; Reverse; fpn2; Reverse].

(** ** Arrays with contents *)

(** The words of the slice [x[:, c, :, :]] of an Array, as raw float32 bit
    patterns. *)
Definition Plane : Type := list Z.

(** An Array with its contents, organised along the channel axis. *)
Record Array : Type := mkArray {
  a_batch : Z;
  a_planes : list Plane;
  a_height : Z;
  a_width : Z
}.

Definition shape_of (a : Array) : Shape :=
  mkShape (a_batch a) (Z.of_nat (length (a_planes a))) (a_height a) (a_width a).

Definition all_zero (a : Array) : bool :=
  forallb (forallb (fun word => word =? 0)) (a_planes a).

Fixpoint split_with_sizes (sizes : list Z) (planes : list Plane)
  : list (list Plane) :=
  match sizes with
  | [] => []
  | k :: ks =>
      firstn (Z.to_nat k) planes
      :: split_with_sizes ks (skipn (Z.to_nat k) planes)
  end.

(** Modelled from the spec: SplitTensor (layers module, not in src/), on
    contents.  "Input: one Array with a channel axis of size C. Configured
    with a partition of C into contiguous chunk sizes. Output: a Stream of
    Arrays, each holding one chunk, same relative channel order as input.
    Errors if chunk sizes do not sum to C." *)
Definition split_tensor (sizes : list Z) (x : Array) : Result (list Array) :=
  if forallb (fun k => 0 <=? k) sizes
     && (sum_list sizes =? Z.of_nat (length (a_planes x)))
  then Ok (map (fun chunk => mkArray (a_batch x) chunk (a_height x) (a_width x))
               (split_with_sizes sizes (a_planes x)))
  else Err ShapeError.

(** Concatenation of chunk Arrays along the channel axis, in Stream order. *)
Definition cat_channels (chunks : list Array) : list Plane :=
  concat (map a_planes chunks).

(** ** Construction-time effects *)

Inductive Exn : Type :=
| NotImplementedError
| RuntimeError
| CollaboratorError (what : string)
| StageError (e : Error).

Inductive Outcome (A : Type) : Type :=
| Return (a : A)
| Raise (e : Exn).
Arguments Return {A} a.
Arguments Raise {A} e.

(** One forward evaluation of the backbone, with the modes it ran under. *)
Record Call : Type := mkCall {
  call_training : bool;
  call_grad : bool;
  call_input : Array
}.

Record World : Type := mkWorld {
  training : bool;       (* [m.training] of the backbone under construction *)
  grad_enabled : bool;   (* the autograd mode of the process *)
  heap : nat -> Z;       (* stale words the allocator hands out *)
  calls : list Call      (* forward evaluations of the backbone so far *)
}.

Definition M (A : Type) : Type := World -> Outcome A * World.

Definition ret {A : Type} (a : A) : M A := fun w => (Return a, w).

Definition raise {A : Type} (e : Exn) : M A := fun w => (Raise e, w).

Definition mbind {A B : Type} (c : M A) (k : A -> M B) : M B :=
  fun w =>
    match c w with
    | (Return a, w') => k a w'
    | (Raise e, w') => (Raise e, w')
    end.

Notation "x <~ c ;; k" := (mbind c (fun x => k))
  (at level 61, c at next level, right associativity).
Notation "c ;;; k" := (mbind c (fun _ => k))
  (at level 61, right associativity).

Definition lift {A : Type} (o : Outcome A) : M A := fun w => (o, w).

Definition lift_result {A : Type} (r : Result A) : M A :=
  match r with
  | Ok a => ret a
  | Err e => raise (StageError e)
  end.

Definition get_training : M bool := fun w => (Return (training w), w).

(** [m.train(mode)]; [m.eval()] is [m.train(False)]. *)
Definition train (mode : bool) : M unit :=
  fun w => (Return tt, mkWorld mode (grad_enabled w) (heap w) (calls w)).

Definition set_grad_enabled (mode : bool) (w : World) : World :=
  mkWorld (training w) mode (heap w) (calls w).

(** [with torch.no_grad(): body]: the context manager switches autograd off
    on entry and puts the previous mode back on exit, also when the body
    raises. *)
Definition no_grad {A : Type} (body : M A) : M A :=
  fun w =>
    let prev := grad_enabled w in
    let (r, w') := body (set_grad_enabled false w) in
    (r, set_grad_enabled prev w').

(** [torch.empty(n, c, h, w)]: storage is allocated, not written. *)
Definition torch_empty (s : Shape) : M Array :=
  fun w =>
    if (batch s <? 0) || (channels s <? 0) || (height s <? 0) || (width s <? 0)
    then (Raise RuntimeError, w)
    else
      let plane_size := Z.to_nat (batch s * height s * width s) in
      let plane (c : nat) :=
        map (heap w) (seq (c * plane_size) plane_size) in
      (Return (mkArray (batch s)
                       (map plane (seq 0 (Z.to_nat (channels s))))
                       (height s) (width s)), w).

(** The Array [torch.empty(1, ch, sz, sz)] yields in world [w]. *)
Definition probe_array (w : World) (ch sz : Z) : Array :=
  let plane_size := Z.to_nat (1 * sz * sz) in
  mkArray 1
          (map (fun c : nat => map (heap w) (seq (c * plane_size) plane_size))
               (seq 0 (Z.to_nat ch)))
          sz sz.

Section Runtime.
(** Evaluation of an assembled backbone by the numeric runtime, given the
    module's training flag, the autograd mode and the input. *)
Variable run : Stage -> bool -> bool -> Array -> Outcome (list Array).

(** [m(x)] *)
Definition call_stage (m : Stage) (x : Array) : M (list Array) :=
  fun w =>
    (run m (training w) (grad_enabled w) x,
     mkWorld (training w) (grad_enabled w) (heap w)
             (calls w ++ [mkCall (training w) (grad_enabled w) x])).

(** [_get_shapes], lines 136-142. *)
Definition _get_shapes (m : Stage) (ch sz : Z) : M (list Shape) :=
  state <~ get_training ;;
  train false ;;;
  feats <~ no_grad (x <~ torch_empty (mkShape 1 ch sz sz) ;; call_stage m x) ;;
  train state ;;;
  ret (map shape_of feats).

(** The [if fpn_type == ...] chain, lines 226-250 and, identically,
    330-354.  A head is there once its layer constructors have returned. *)
Definition select_fpn (fpn_type : string) (feats_shapes : list Shape)
    (fpn_channels num_classes : Z) : M Stage :=
  if String.eqb fpn_type "fpn" then
    lift_result
      (construct (Sequential [FPN feats_shapes fpn_channels num_classes;
                              SelectOne 0]))
  else if String.eqb fpn_type "panoptic" then
    lift_result (PanopticFPN feats_shapes fpn_channels num_classes None 32)
  else if String.eqb fpn_type "panet+fpn" then
    let feats_shapes2 :=
      map (fun s => mkShape (batch s) fpn_channels (height s) (width s))
          feats_shapes in
    lift_result
      (construct (Sequential [PANetFPN feats_shapes fpn_channels fpn_channels;
                              FPN feats_shapes2 fpn_channels num_classes;
                              SelectOne 0]))
  else raise NotImplementedError.

(** [torch.hub.load], which may fail. *)
Variable torch_hub_load :
  string -> string -> Z -> string -> Z -> Outcome EffNet.

(** [_load_efficientnet], lines 186-196. *)
Definition _load_efficientnet (name : string) (num_classes : Z)
    (pretrained : string) (in_channels : Z) : M EffNet :=
  lift (torch_hub_load "lukemelas/EfficientNet-PyTorch" name num_classes
                       pretrained in_channels).

(** [make_segm_fpn_efficientnet], lines 199-255. *)
Definition make_segm_fpn_efficientnet (name fpn_type : string)
    (out_size : Z * Z) (fpn_channels num_classes : Z) (pretrained : string)
    (in_channels : Z) : M Stage :=
  effnet <~ _load_efficientnet name num_classes pretrained 3 ;;
  backbone <~
    (if 3 <? in_channels then
       let new_channels := in_channels - 3 in
       new_effnet <~
         _load_efficientnet name num_classes pretrained new_channels ;;
       ret (Sequential
              [SplitTensor [3; new_channels];
               Parallel [EfficientNetFeatureMapsExtractor effnet;
                         EfficientNetFeatureMapsExtractor new_effnet];
               AddAcross])
     else ret (EfficientNetFeatureMapsExtractor effnet)) ;;
  feats_shapes <~ _get_shapes backbone in_channels (fst out_size) ;;
  fpn <~ select_fpn fpn_type feats_shapes fpn_channels num_classes ;;
  ret (Sequential [backbone; fpn; Interpolate (Some out_size) None]).

(** Lines 293-327 of [make_segm_fpn_resnet]: the backbone is put together
    from networks of torchvision's model zoo, with first-layer surgery for
    inputs that are not RGB.  The zoo and its networks are external; the
    outcome of these lines is a backbone known through its shape
    behaviour, or an exception. *)
Variable resnet_backbone :
  string -> bool -> Z -> Outcome (Value -> Result Value).

(** [make_segm_fpn_resnet], lines 286-362. *)
Definition make_segm_fpn_resnet (name fpn_type : string)
    (out_size : Z * Z) (fpn_channels num_classes : Z) (pretrained : bool)
    (in_channels : Z) : M Stage :=
  f <~ lift (resnet_backbone name pretrained in_channels) ;;
  let backbone := Opaque f in
  feats_shapes <~ _get_shapes backbone in_channels (fst out_size) ;;
  fpn <~ select_fpn fpn_type feats_shapes fpn_channels num_classes ;;
  ret (Sequential [backbone; fpn; Interpolate (Some out_size) None]).
End Runtime.

(** ** A reference instance of the collaborators *)

(** An Array of a given shape whose words are left out. *)
Definition array_of_shape (s : Shape) : Array :=
  mkArray (batch s) (repeat [] (Z.to_nat (channels s))) (height s) (width s).

Fixpoint shapes_of_values (vs : list Value) : option (list Shape) :=
  match vs with
  | [] => Some []
  | Tensor s :: vs' =>
      match shapes_of_values vs' with
      | Some ss => Some (s :: ss)
      | None => None
      end
  | Stream _ :: _ => None
  end.

(** A runtime that agrees with [forward] on shapes. *)
Definition shape_runtime (m : Stage) (training grad : bool) (x : Array)
  : Outcome (list Array) :=
  match forward m (Tensor (shape_of x)) with
  | Ok (Stream vs) =>
      match shapes_of_values vs with
      | Some ss => Return (map array_of_shape ss)
      | None => Raise (StageError TypeError)
      end
  | Ok (Tensor _) => Raise (StageError TypeError)
  | Err e => Raise (StageError e)
  end.

(** A three-level feature extractor with strides 4, 8 and 16. *)
Definition three_level_net (in_channels : Z) : EffNet :=
  mkEffNet (fun s =>
    if channels s =? in_channels
    then Ok [mkShape (batch s) 64 (height s / 4) (width s / 4);
             mkShape (batch s) 128 (height s / 8) (width s / 8);
             mkShape (batch s) 256 (height s / 16) (width s / 16)]
    else Err ShapeError).

Definition hub_with_b0 (repo name : string) (num_classes : Z)
    (pretrained : string) (in_channels : Z) : Outcome EffNet :=
  if String.eqb name "efficientnet_b0"
  then Return (three_level_net in_channels)
  else Raise (CollaboratorError "unknown model").

Definition zoo_with_resnet18 (name : string) (pretrained : bool)
    (in_channels : Z) : Outcome (Value -> Result Value) :=
  if String.eqb name "resnet18"
  then Return (forward (EfficientNetFeatureMapsExtractor
                          (three_level_net in_channels)))
  else Raise (CollaboratorError "KeyError").

Definition fresh_world (stale : Z) : World :=
  mkWorld true true (fun _ => stale) [].

Definition scenario_shapes : list Shape :=
  [mkShape 1 64 56 56; mkShape 1 128 28 28; mkShape 1 256 14 14].

(** The spatial (height, width) shape of a value, when it is an Array. *)
Definition spatial_of (v : Value) : option (Z * Z) :=
  match v with
  | Tensor s => Some (spatial s)
  | Stream _ => None
  end.

(** A merge stage resamples to match: whatever it returns for the pair
    (external input, accumulator) has the external input's spatial shape,
    and so has what it returns for an external input alone. *)
Definition merges_to_external_shape (m : Stage) : Prop :=
  (forall x acc v,
      forward m (Stream [x; acc]) = Ok v -> spatial_of v = spatial_of x)
  /\ (forall s v,
      forward m (Tensor s) = Ok v -> spatial_of v = Some (spatial s)).

(** The data flow of the chained fold: there is one output per stage;
    output 0 is stage 0 applied to external input 0, and every later output
    is its stage applied to the pair of its external input and the output
    before it. *)
Definition folds_to (ms : list Stage) (xs outs : list Value) : Prop :=
  length outs = length ms
  /\ (forall m x,
      nth_error ms 0 = Some m -> nth_error xs 0 = Some x ->
      exists out, nth_error outs 0 = Some out /\ forward m x = Ok out)
  /\ (forall i m x acc,
      nth_error ms (S i) = Some m -> nth_error xs (S i) = Some x ->
      nth_error outs i = Some acc ->
      exists out,
        nth_error outs (S i) = Some out
        /\ forward m (Stream [x; acc]) = Ok out).

(** ** Vocabulary of the statements *)

(** A branch that maps one Array to an Array with [oc] channels and the same
    batch and spatial size, and accepts nothing else. *)
Definition projects_to (oc : Z) (m : Stage) : Prop :=
  forall x v,
    forward m x = Ok v ->
    exists s, x = Tensor s /\ v = Tensor (with_channels oc s).

(** The merge stage [FPN.__init__] builds for a level of shape [s]. *)
Definition upsample_and_add_stage (s : Shape) : Stage :=
  Residual (Interpolate (Some (spatial s)) None).

(** A probed shape at run-time batch size [b]. *)
Definition at_batch (b : Z) (s : Shape) : Shape :=
  mkShape b (channels s) (height s) (width s).

Definition positive_size (s : Shape) : Prop := 0 < height s /\ 0 < width s.

(** The shape of a feature map that holds something: channels, rows and
    columns. *)
Definition nonempty_level (s : Shape) : Prop :=
  0 < channels s /\ positive_size s.

(** [(n, c, h, w)] with the channel count replaced, as in lines 119-120 and
    238-239. *)
Definition rechannel (c : Z) (s : Shape) : Shape :=
  mkShape (batch s) c (height s) (width s).

(** What a ladder of PanopticFPN needs of its configuration: a positive
    group count that divides the hidden width [c] and its half, a half that
    is positive, and a positive target size. *)
Definition ladder_runs (c g : Z) (size : Z * Z) : Prop :=
  0 < g /\ c mod g = 0 /\ (c / 2) mod g = 0 /\ 0 < c / 2
  /\ 0 < fst size /\ 0 < snd size.


(** The fixed set of pyramid-variant selectors. *)
Definition valid_fpn_type (fpn_type : string) : bool :=
  String.eqb fpn_type "fpn" || String.eqb fpn_type "panoptic"
  || String.eqb fpn_type "panet+fpn".

(** The common tail of both factories: probe the backbone, build the head
    the selector names, put the pipeline together. *)
Definition probe_and_assemble
    (run : Stage -> bool -> bool -> Array -> Outcome (list Array))
    (backbone : Stage) (fpn_type : string) (out_size : Z * Z)
    (fpn_channels num_classes in_channels : Z) : M Stage :=
  feats_shapes <~ _get_shapes run backbone in_channels (fst out_size) ;;
  fpn <~ select_fpn fpn_type feats_shapes fpn_channels num_classes ;;
  ret (Sequential [backbone; fpn; Interpolate (Some out_size) None]).

(** The two-network backbone built for more than three input channels,
    lines 216-221. *)
Definition split_backbone (effnet new_effnet : EffNet) (new_channels : Z)
  : Stage :=
  Sequential [SplitTensor [3; new_channels];
              Parallel [EfficientNetFeatureMapsExtractor effnet;
                        EfficientNetFeatureMapsExtractor new_effnet];
              AddAcross].

(** What the heads need of their configuration to run on the probed
    shapes: widths that are positive, at least one probed feature map, none
    of them empty, and for the panoptic head hidden widths that its 32
    normalisation groups divide. *)
Definition head_runs (fpn_type : string) (feats_shapes : list Shape)
    (fpn_channels num_classes : Z) : Prop :=
  0 < fpn_channels /\ 0 < num_classes
  /\ feats_shapes <> [] /\ Forall nonempty_level feats_shapes
  /\ (fpn_type = "panoptic"%string ->
      fpn_channels mod 32 = 0 /\ (fpn_channels / 2) mod 32 = 0).





(** ** The first convolution of a torchvision ResNet *)

(** [weight.data] of a convolution seen along dimension 1, the input-channel
    axis that lines 272, 273 and 326 index.  A rank-4 tensor
    (out, in, kh, kw) is the list of its slices [weight[:, j]]; a rank-3
    tensor (out, kh, kw) is one such slice, with no input-channel axis
    left. *)
Inductive Weight : Type :=
| W4 (planes : list Plane)
| W3 (plane : Plane).

(** The keyword arguments collected at lines 298-306. *)
Record ConvArgs : Type := mkConvArgs {
  out_channels : Z;
  kernel_size : Z * Z;
  stride : Z * Z;
  padding : Z * Z;
  dilation : Z * Z;
  groups : Z;
  bias : option Plane
}.

(** A convolution layer, by its configuration and its weight.  A layer as
    [nn.Conv2d] builds it carries a rank-4 weight ([W := list Plane]); a
    layer whose [weight.data] has been assigned to carries whatever was
    assigned ([W := Weight]). *)
Record ConvLayer (W : Type) : Type := mkConvLayer {
  conv_args : ConvArgs;
  weight : W
}.
Arguments mkConvLayer {W} conv_args weight.
Arguments conv_args {W} c.
Arguments weight {W} c.

(** A network of [tv.models.resnet]: its first convolution, and the modules
    behind it, external collaborators known through the shapes they map. *)
Record ResNet (W : Type) : Type := mkResNet {
  conv1 : ConvLayer W;
  bn1 : Value -> Result Value;
  relu : Value -> Result Value;
  maxpool : Value -> Result Value;
  layer1 : Value -> Result Value;
  layer2 : Value -> Result Value;
  layer3 : Value -> Result Value;
  layer4 : Value -> Result Value
}.
Arguments mkResNet {W} conv1 bn1 relu maxpool layer1 layer2 layer3 layer4.
Arguments conv1 {W} r.
Arguments bn1 {W} r.
Arguments relu {W} r.
Arguments maxpool {W} r.
Arguments layer1 {W} r.
Arguments layer2 {W} r.
Arguments layer3 {W} r.
Arguments layer4 {W} r.

(** [model.conv1 = conv] *)
Definition set_conv1 {W W' : Type} (model : ResNet W) (conv : ConvLayer W')
  : ResNet W' :=
  mkResNet conv (bn1 model) (relu model) (maxpool model) (layer1 model)
           (layer2 model) (layer3 model) (layer4 model).

(** A layer as built, seen as a layer whose weight may be any tensor. *)
Definition as_built (conv : ConvLayer (list Plane)) : ConvLayer Weight :=
  mkConvLayer (conv_args conv) (W4 (weight conv)).

(** The output extent of a convolution along one spatial axis. *)
Definition conv_out_size (n k s p d : Z) : Z :=
  (n + 2 * p - d * (k - 1) - 1) / s + 1.

(** [F.conv2d(x, weight, ...)] as [nn.Conv2d.forward] calls it: input and
    weight must have the same rank, the input must have channels, as many
    as the weight's input planes times the (positive) group count, the
    layer must have output channels and the output must not be empty. *)
Definition conv2d (conv : ConvLayer Weight) (x : Value) : Result Value :=
  match x with
  | Tensor s =>
      match weight conv with
      | W4 planes =>
          let a := conv_args conv in
          let h := conv_out_size (height s) (fst (kernel_size a))
                     (fst (stride a)) (fst (padding a)) (fst (dilation a)) in
          let w := conv_out_size (width s) (snd (kernel_size a))
                     (snd (stride a)) (snd (padding a)) (snd (dilation a)) in
          if (0 <? channels s) && (0 <? groups a) && (0 <? out_channels a)
             && (channels s =? Z.of_nat (length planes) * groups a)
             && (0 <? fst (stride a)) && (0 <? snd (stride a))
             && (0 <? h) && (0 <? w)
          then Ok (Tensor (mkShape (batch s) (out_channels a) h w))
          else Err ShapeError
      | W3 _ => Err ShapeError
      end
  | Stream _ => Err TypeError
  end.

(** Modelled from the spec: SequentialMultiOutput (containers module, not
    under src/).  "Constructed from an ordered sequence of N Stages meant to
    be chained. Given a single input Array, produces an output Stream of
    length N: stage 0 consumes the original input and produces output[0];
    stage i (for i>0) consumes output[i-1] and produces output[i]." *)
Fixpoint SequentialMultiOutput_forward (stages : list (Value -> Result Value))
    (x : Value) : Result (list Value) :=
  match stages with
  | [] => Ok []
  | f :: stages' =>
      y <- f x ;; ys <- SequentialMultiOutput_forward stages' y ;; Ok (y :: ys)
  end.

(** The stem of lines 160-165. *)
Definition stem (model : ResNet Weight) (x : Value) : Result Value :=
  a <- conv2d (conv1 model) x ;;
  b <- bn1 model a ;;
  c <- relu model b ;;
  maxpool model c.

(** [ResNetFeatureMapsExtractor(model)], lines 155-183 with [mode=None]. *)
Definition ResNetFeatureMapsExtractor (model : ResNet Weight) : Stage :=
  Opaque (fun x =>
    feats <- SequentialMultiOutput_forward
               [stem model; layer1 model; layer2 model; layer3 model;
                layer4 model] x ;;
    Ok (Stream feats)).

(** *** Indexing along the input-channel axis *)

(** Python's normalisation of a slice bound against a length. *)
Definition clamp_index (n k : Z) : Z :=
  if k <? 0 then Z.max 0 (k + n) else Z.min k n.

(** [t[:, lo:hi]] *)
Definition slice {A : Type} (lo hi : Z) (l : list A) : list A :=
  let n := Z.of_nat (length l) in
  firstn (Z.to_nat (clamp_index n hi - clamp_index n lo))
         (skipn (Z.to_nat (clamp_index n lo)) l).

(** [t[:, lo:hi] = src]: the source has as many planes as the slice that is
    assigned to, or a single plane, which is broadcast; every other source is
    rejected. *)
Definition assign_slice {A : Type} (lo hi : Z) (src l : list A)
  : Result (list A) :=
  let n := Z.of_nat (length l) in
  let start := Z.to_nat (clamp_index n lo) in
  let count := Z.to_nat (clamp_index n hi - clamp_index n lo) in
  match src with
  | [p] => Ok (firstn start l ++ repeat p count ++ skipn (start + count) l)
  | _ =>
      if Nat.eqb (length src) count
      then Ok (firstn start l ++ src ++ skipn (start + count) l)
      else Err ShapeError
  end.

(** [t[:, k]] for an integer [k]: one plane, counted from the end when [k]
    is negative; an IndexError outside [-n <= k < n]. *)
Definition index_plane (k : Z) (l : list Plane) : Result Plane :=
  let n := Z.of_nat (length l) in
  if (- n <=? k) && (k <? n)
  then match nth_error l (Z.to_nat (if k <? 0 then k + n else k)) with
       | Some p => Ok p
       | None => Err IndexError
       end
  else Err IndexError.

(** The loop of lines 268-275 on the planes of [old_conv.weight.data] and
    [new_conv.weight.data]. *)
Equations? copy_pretrained_weights (old : list Plane)
    (i remaining_channels : Z) (new : list Plane)
  : Result (list Plane) by wf (Z.to_nat remaining_channels) lt :=
copy_pretrained_weights old i remaining_channels new
  with Z_gt_dec remaining_channels 0 := {
  | left _ =>
      let chunk_size := Z.min remaining_channels 3 in
      let pretrained_weights := slice 0 chunk_size old in
      match assign_slice i (i + chunk_size) pretrained_weights new with
      | Ok new' =>
          copy_pretrained_weights old (i + chunk_size)
            (remaining_channels - chunk_size) new'
      | Err e => Err e
      end
  | right _ => Ok new }.
Proof. lia. Qed.

(** The old planes repeated in their order: plane [j] is old plane
    [j mod 3]. *)
Definition tiled (old : list Plane) (n : nat) : list Plane :=
  map (fun j => nth (j mod 3)%nat old []) (seq 0 n).

Definition obind {A B : Type} (o : Outcome A) (k : A -> Outcome B)
  : Outcome B :=
  match o with
  | Return a => k a
  | Raise e => Raise e
  end.

Definition outcome_of_result {A : Type} (r : Result A) : Outcome A :=
  match r with
  | Ok a => Return a
  | Err e => Raise (StageError e)
  end.

Section FirstLayer.
(** [tv.models.resnet.__dict__]: the constructors by name; a constructor
    takes [pretrained] and may fail. *)
Variable zoo : string -> option (bool -> Outcome (ResNet (list Plane))).

(** [nn.Conv2d(in_channels=n, **args)]: a freshly initialised layer, or the
    constructor's exception. *)
Variable nn_Conv2d : Z -> ConvArgs -> Outcome (ConvLayer (list Plane)).

(** [ResNetFeatureMapsExtractor(model, mode='fusion').forward], lines
    173-175 and 182-183.  It hands SequentialMultiInputMultiOutput, built
    from five stages, the RGB input together with all the feature maps of
    the other network; what the container does with them is decided in the
    containers module. *)
Variable fusion_forward : ResNet Weight -> Value -> Result Value.

(** [make_fusion_resnet_backbone], lines 258-283. *)
Definition make_fusion_resnet_backbone
    (old_resnet new_resnet : ResNet (list Plane)) (new_channels : Z)
    (old_conv : ConvLayer (list Plane)) (old_conv_args : ConvArgs)
    (copy_weights : bool) : Outcome Stage :=
  obind (nn_Conv2d new_channels old_conv_args) (fun new_conv =>
  obind (outcome_of_result
           (copy_pretrained_weights (weight old_conv) 0 new_channels
                                    (weight new_conv))) (fun data =>
  let new_conv := mkConvLayer (conv_args new_conv) (W4 data) in
  let new_resnet := set_conv1 new_resnet new_conv in
  Return (Sequential
            [SplitTensor [3; new_channels];
             Parallel [Opaque (fun x => Ok x);
                       ResNetFeatureMapsExtractor new_resnet];
             Opaque (fusion_forward
                       (set_conv1 old_resnet (as_built (conv1 old_resnet))))]))).

(** Lines 293-327 of [make_segm_fpn_resnet]: from the zoo to the backbone. *)
Definition resnet_first_layer_surgery (name : string) (pretrained : bool)
    (in_channels : Z) : Outcome (Value -> Result Value) :=
  match zoo name with
  | None => Raise (CollaboratorError "KeyError")
  | Some resnet_constructor =>
      obind (resnet_constructor pretrained) (fun resnet =>
      if in_channels =? 3 then
        Return (forward (ResNetFeatureMapsExtractor
                           (set_conv1 resnet (as_built (conv1 resnet)))))
      else
        let old_conv := conv1 resnet in
        let old_conv_args := conv_args old_conv in
        if negb pretrained then
          obind (nn_Conv2d in_channels old_conv_args) (fun conv =>
          Return (forward (ResNetFeatureMapsExtractor
                             (set_conv1 resnet (as_built conv)))))
        else if 3 <? in_channels then
          let new_channels := in_channels - 3 in
          obind (resnet_constructor pretrained) (fun new_resnet =>
          obind (make_fusion_resnet_backbone resnet new_resnet new_channels
                   old_conv old_conv_args true) (fun backbone =>
          Return (forward backbone)))
        else
          obind (nn_Conv2d in_channels old_conv_args) (fun conv =>
          obind (outcome_of_result
                   (index_plane in_channels (weight old_conv))) (fun data =>
          Return (forward (ResNetFeatureMapsExtractor
                             (set_conv1 resnet
                                (mkConvLayer (conv_args conv) (W3 data))))))))
  end.
End FirstLayer.

(** *** A reference zoo *)

(** The first convolution of torchvision's resnet18: 64 filters of 7x7,
    stride 2, padding 3, no bias. *)
Definition resnet18_conv1_args : ConvArgs :=
  mkConvArgs 64 (7, 7) (2, 2) (3, 3) (1, 1) 1 None.

(** A block that sets the channel count and divides the spatial size. *)
Definition downsample (c k : Z) (x : Value) : Result Value :=
  match x with
  | Tensor s => Ok (Tensor (mkShape (batch s) c (height s / k) (width s / k)))
  | Stream _ => Err TypeError
  end.

Definition reference_resnet : ResNet (list Plane) :=
  mkResNet (mkConvLayer resnet18_conv1_args [[1]; [2]; [3]])
           (fun x => Ok x) (fun x => Ok x) (downsample 64 2)
           (downsample 64 1) (downsample 128 2) (downsample 256 2)
           (downsample 512 2).

Definition reference_zoo (name : string)
  : option (bool -> Outcome (ResNet (list Plane))) :=
  if String.eqb name "resnet18" then Some (fun _ => Return reference_resnet)
  else None.

Definition reference_Conv2d (in_channels : Z) (args : ConvArgs)
  : Outcome (ConvLayer (list Plane)) :=
  if (in_channels <? 0) || (groups args <=? 0)
  then Raise RuntimeError
  else Return (mkConvLayer args
                 (repeat [0] (Z.to_nat (in_channels / groups args)))).

(** * Properties *)

(** ** Results *)

Lemma rbind_ok {A B : Type} (r : Result A) (k : A -> Result B) (b : B) :
  rbind r k = Ok b -> exists a, r = Ok a /\ k a = Ok b.
Proof.
  destruct r as [a|e]; simpl; intros H; [eauto | discriminate].
Qed.

Ltac unfold_stage :=
  unfold Conv2d_forward, GroupNorm_forward, ReLU_forward, Interpolate_forward,
    Reverse_forward, AddTensors_forward, AddAcross_forward, SelectOne_forward,
    SplitTensor_forward, EfficientNetFeatureMapsExtractor_forward,
    Residual_forward, Parallel_forward,
    SequentialMultiInputMultiOutput_forward in *.

Ltac inv_ok :=
  repeat match goal with
  | H : rbind _ _ = Ok _ |- _ =>
      let a := fresh "a" in
      let Ha := fresh "Ha" in
      apply rbind_ok in H; destruct H as (a & Ha & H)
  | H : Ok _ = Ok _ |- _ => injection H as H
  | H : Err _ = Ok _ |- _ => discriminate H
  end.

Lemma shape_eqb_eq (a b : Shape) : shape_eqb a b = true <-> a = b.
Proof.
  unfold shape_eqb. destruct a, b; simpl.
  rewrite !andb_true_iff, !Z.eqb_eq. split.
  - intros [[[-> ->] ->] ->]. reflexivity.
  - intros H. injection H as -> -> -> ->. auto.
Qed.

Lemma shape_eqb_refl (a : Shape) : shape_eqb a a = true.
Proof. apply shape_eqb_eq. reflexivity. Qed.

Lemma add_values_ok (x y v : Value) :
  add_values x y = Ok v -> v = x /\ y = x /\ exists s, x = Tensor s.
Proof.
  destruct x as [a|], y as [b|]; simpl; try discriminate.
  unfold add_shapes. destruct (shape_eqb a b) eqn:E; simpl; [|discriminate].
  apply shape_eqb_eq in E. subst b. intros H. injection H as <-. eauto.
Qed.

Lemma add_values_same (s : Shape) :
  add_values (Tensor s) (Tensor s) = Ok (Tensor s).
Proof. simpl. unfold add_shapes. rewrite shape_eqb_refl. reflexivity. Qed.

(** ** The chained fold *)

Lemma fold_apply_length (ms : list Stage) :
  forall acc rest outs,
    fold_apply forward ms acc rest = Ok outs -> length outs = length ms.
Proof.
  induction ms as [|m ms IH]; intros acc [|x rest] outs H; cbn [fold_apply] in H;
    inv_ok; subst; cbn [length]; auto.
  f_equal. eauto.
Qed.

Lemma fold_apply_nth (ms : list Stage) :
  forall acc rest outs,
    fold_apply forward ms acc rest = Ok outs ->
    forall i m x prev,
      nth_error ms i = Some m -> nth_error rest i = Some x ->
      nth_error (acc :: outs) i = Some prev ->
      exists out,
        nth_error outs i = Some out /\ forward m (Stream [x; prev]) = Ok out.
Proof.
  induction ms as [|m0 ms IH]; intros acc [|x0 rest] outs H i m x prev Hm Hx Hp;
    cbn [fold_apply] in H; try (destruct i; discriminate).
  inv_ok. subst outs. destruct i as [|i]; cbn [nth_error] in *.
  - injection Hm as <-. injection Hx as <-. injection Hp as <-. eauto.
  - eapply IH; eassumption.
Qed.

Lemma fold_apply_spatial (ms : list Stage) :
  Forall merges_to_external_shape ms ->
  forall acc rest outs,
    length rest = length ms ->
    fold_apply forward ms acc rest = Ok outs ->
    map spatial_of outs = map spatial_of rest.
Proof.
  induction 1 as [|m ms [Hm _] _ IH]; intros acc [|x rest] outs Hlen H;
    cbn [fold_apply] in H; try discriminate Hlen; inv_ok; subst;
    cbn [map]; auto.
  injection Hlen as Hlen. f_equal; eauto.
Qed.

Lemma residual_merge (f : Stage) (x acc v : Value) :
  forward (Residual f) (Stream [x; acc]) = Ok v ->
  v = x /\ forward f acc = Ok x.
Proof.
  cbn [forward]; unfold_stage. destruct x as [s|]; [|discriminate].
  intros H. inv_ok. apply add_values_ok in H as (-> & -> & _). auto.
Qed.

Lemma residual_alone (f : Stage) (s : Shape) (v : Value) :
  forward (Residual f) (Tensor s) = Ok v ->
  v = Tensor s /\ forward f (Tensor s) = Ok (Tensor s).
Proof.
  cbn [forward]; unfold_stage.
  intros H. inv_ok. apply add_values_ok in H as (-> & -> & _). auto.
Qed.

Lemma residual_merges_to_external_shape (f : Stage) :
  merges_to_external_shape (Residual f).
Proof.
  split.
  - intros x acc v H. apply residual_merge in H as [-> _]. reflexivity.
  - intros s v H. apply residual_alone in H as [-> _]. reflexivity.
Qed.

Lemma smimo_inv (ms : list Stage) (xs : list Value) (v : Value) :
  forward (SequentialMultiInputMultiOutput ms) (Stream xs) = Ok v ->
  (length xs = length ms \/ length xs = S (length ms)) /\
  match ms, xs with
  | m0 :: ms', x0 :: rest =>
      exists acc outs,
        forward m0 x0 = Ok acc
        /\ fold_apply forward ms' acc rest = Ok outs
        /\ v = Stream (acc :: outs)
  | _, _ => v = Stream []
  end.
Proof.
  cbn [forward]; unfold_stage.
  destruct (Nat.eqb (length xs) (length ms)
            || Nat.eqb (length xs) (S (length ms))) eqn:E; [|discriminate].
  apply orb_true_iff in E. rewrite !Nat.eqb_eq in E.
  intros H. split; [assumption|].
  destruct ms as [|m0 ms'], xs as [|x0 rest]; inv_ok; subst; eauto.
Qed.

Lemma smimo_arity (ms : list Stage) (xs : list Value) :
  length xs <> length ms -> length xs <> S (length ms) ->
  forward (SequentialMultiInputMultiOutput ms) (Stream xs) = Err ArityError.
Proof.
  intros H H'. cbn [forward]; unfold_stage.
  apply Nat.eqb_neq in H, H'. rewrite H, H'. reflexivity.
Qed.

(** The fold threads the accumulator: an output is its stage applied to its
    external input and the output before it. *)
Lemma smimo_folds (ms : list Stage) (xs : list Value) (v : Value) :
  forward (SequentialMultiInputMultiOutput ms) (Stream xs) = Ok v ->
  exists outs, v = Stream outs /\ folds_to ms xs outs.
Proof.
  intros H. apply smimo_inv in H as [Hlen H].
  destruct ms as [|m0 ms'].
  { exists []. split; [destruct xs; assumption|].
    split; [reflexivity|]. split.
    - intros m x Hm. discriminate Hm.
    - intros i m x acc Hm. discriminate Hm. }
  destruct xs as [|x0 rest]; [destruct Hlen; discriminate|].
  destruct H as (acc & outs & H0 & Hfold & ->).
  exists (acc :: outs). split; [reflexivity|].
  split; [cbn [length]; f_equal; eapply fold_apply_length; eassumption|].
  split.
  - intros m x Hm Hx. cbn [nth_error] in *.
    injection Hm as <-. injection Hx as <-. eauto.
  - intros i m x prev Hm Hx Hp. cbn [nth_error] in Hm, Hx |- *.
    eapply fold_apply_nth; eassumption.
Qed.

Lemma smimo_spatial (ms : list Stage) (ss : list Shape) (outs : list Value) :
  Forall merges_to_external_shape ms ->
  length ss = length ms ->
  forward (SequentialMultiInputMultiOutput ms) (Stream (map Tensor ss))
  = Ok (Stream outs) ->
  map spatial_of outs = map spatial_of (map Tensor ss).
Proof.
  intros Hall Hlen H. apply smimo_inv in H as [_ H].
  destruct ms as [|m0 ms'], ss as [|s0 rest]; try discriminate Hlen;
    cbn [map] in H.
  - injection H as H. subst outs. reflexivity.
  - destruct H as (acc & outs' & H0 & Hfold & E). injection E as E.
    subst outs.
    inversion Hall as [|? ? [_ Hm0] Hrest]; subst.
    injection Hlen as Hlen. cbn [map]. f_equal.
    + apply (Hm0 s0 acc H0).
    + eapply fold_apply_spatial; [eassumption | | eassumption].
      rewrite length_map. assumption.
Qed.

(** ** Parallel branches *)

Lemma conv2d_ok (ic oc k p : Z) (x v : Value) :
  forward (Conv2d ic oc k p) x = Ok v ->
  exists s, x = Tensor s /\ channels s = ic /\
    0 < height s + 2 * p - k + 1 /\ 0 < width s + 2 * p - k + 1 /\
    v = Tensor (mkShape (batch s) oc (height s + 2 * p - k + 1)
                        (width s + 2 * p - k + 1)).
Proof.
  cbn [forward]; unfold_stage. destruct x as [s|]; [|discriminate].
  destruct (_ && _) eqn:E; [|discriminate].
  rewrite !andb_true_iff in E.
  destruct E as ((((((_ & _) & _) & _) & Ec) & Eh) & Ew).
  intros H. injection H as <-. exists s.
  apply Z.eqb_eq in Ec. apply Z.ltb_lt in Eh, Ew. auto.
Qed.

Lemma conv2d_positive (ic oc k p : Z) (x v : Value) :
  forward (Conv2d ic oc k p) x = Ok v -> 0 < ic /\ 0 < oc.
Proof.
  cbn [forward]; unfold_stage. destruct x as [s|]; [|discriminate].
  destruct (_ && _) eqn:E; [|discriminate].
  rewrite !andb_true_iff in E.
  destruct E as ((((((Ei & Eo) & _) & _) & _) & _) & _).
  apply Z.ltb_lt in Ei, Eo. auto.
Qed.

Lemma conv2d_same_size (ic oc k p : Z) (s : Shape) :
  k = 2 * p + 1 -> 0 <= p -> 0 < ic -> 0 < oc ->
  channels s = ic -> 0 < height s -> 0 < width s ->
  forward (Conv2d ic oc k p) (Tensor s) = Ok (Tensor (with_channels oc s)).
Proof.
  intros -> Hp Hi Ho <- Hh Hw. cbn [forward]; unfold_stage.
  replace (height s + 2 * p - (2 * p + 1) + 1) with (height s) by lia.
  replace (width s + 2 * p - (2 * p + 1) + 1) with (width s) by lia.
  rewrite Z.eqb_refl.
  destruct (Z.ltb_spec 0 (channels s)); [|lia].
  destruct (Z.ltb_spec 0 oc); [|lia].
  destruct (Z.ltb_spec 0 (2 * p + 1)); [|lia].
  destruct (Z.leb_spec 0 p); [|lia].
  destruct (Z.ltb_spec 0 (height s)); [|lia].
  destruct (Z.ltb_spec 0 (width s)); [|lia].
  reflexivity.
Qed.

Lemma conv2d_projects (ic oc k p : Z) :
  k = 2 * p + 1 -> projects_to oc (Conv2d ic oc k p).
Proof.
  intros -> x v H. apply conv2d_ok in H as (s & -> & _ & _ & _ & ->).
  exists s. split; [reflexivity|]. unfold with_channels. do 2 f_equal; lia.
Qed.

Lemma parallel_inv (ms : list Stage) (x v : Value) :
  forward (Parallel ms) x = Ok v ->
  exists xs ys, x = Stream xs /\ length xs = length ms /\
    zip_apply forward ms xs = Ok ys /\ v = Stream ys.
Proof.
  cbn [forward]; unfold_stage. destruct x as [|xs]; [discriminate|].
  destruct (Nat.eqb (length xs) (length ms)) eqn:E; [|discriminate].
  apply Nat.eqb_eq in E. intros H. inv_ok. subst. eauto 6.
Qed.

Lemma zip_apply_projects (oc : Z) (ms : list Stage) :
  Forall (projects_to oc) ms ->
  forall xs ys,
    length xs = length ms -> zip_apply forward ms xs = Ok ys ->
    exists ss, xs = map Tensor ss /\ ys = map Tensor (map (with_channels oc) ss).
Proof.
  induction 1 as [|m ms Hm _ IH]; intros [|x xs] ys Hlen H; simpl in *;
    try discriminate.
  - inv_ok. subst. exists []. auto.
  - inv_ok. subst. injection Hlen as Hlen.
    apply Hm in Ha as (s & -> & ->).
    destruct (IH _ _ Hlen Ha0) as (ss & -> & ->).
    exists (s :: ss). auto.
Qed.

Lemma zip_apply_map {A : Type} (g : A -> Stage) (h k : A -> Value)
    (l : list A) :
  (forall a, In a l -> forward (g a) (h a) = Ok (k a)) ->
  zip_apply forward (map g l) (map h l) = Ok (map k l).
Proof.
  induction l as [|a l IH]; intros H; simpl; [reflexivity|].
  rewrite (H a) by (left; reflexivity). simpl.
  rewrite IH by (intros; apply H; right; assumption). reflexivity.
Qed.

Lemma parallel_map {A : Type} (g : A -> Stage) (h k : A -> Value)
    (l : list A) :
  (forall a, In a l -> forward (g a) (h a) = Ok (k a)) ->
  forward (Parallel (map g l)) (Stream (map h l)) = Ok (Stream (map k l)).
Proof.
  intros H. cbn [forward]; unfold_stage. rewrite !length_map, Nat.eqb_refl.
  rewrite (zip_apply_map g h k l H). reflexivity.
Qed.

Lemma zip_apply_length (ms : list Stage) :
  forall xs ys,
    length xs = length ms -> zip_apply forward ms xs = Ok ys ->
    length ys = length ms.
Proof.
  induction ms as [|m ms IH]; intros [|x xs] ys Hlen H; cbn [zip_apply] in H;
    try discriminate; inv_ok; subst; [reflexivity|].
  cbn [length]. f_equal. apply (IH xs); [|assumption].
  cbn [length] in Hlen. congruence.
Qed.

Lemma zip_apply_in_convs_channels (hc : Z) (shapes : list Shape) :
  forall ss ys,
    length ss = length shapes ->
    zip_apply forward (map (fun s => Conv2d (channels s) hc 1 0) shapes)
              (map Tensor ss) = Ok ys ->
    map channels ss = map channels shapes.
Proof.
  induction shapes as [|s shapes IH]; intros [|t ss] ys Hlen H;
    try discriminate; [reflexivity|].
  cbn [map zip_apply] in H. inv_ok.
  apply conv2d_ok in Ha as (t' & E & Hc & _). injection E as <-.
  cbn [map]. f_equal; [assumption|].
  apply (IH ss a0); [cbn [length] in Hlen; congruence | assumption].
Qed.

(** ** Resampling *)

Lemma interpolate_to_size (hw : Z * Z) (k : option Z) (s : Shape) :
  positive_size s -> 0 < fst hw -> 0 < snd hw ->
  forward (Interpolate (Some hw) k) (Tensor s) = Ok (Tensor (with_spatial hw s)).
Proof.
  intros [Hh Hw] H1 H2. cbn [forward]; unfold_stage.
  destruct (Z.ltb_spec 0 (height s)); [|lia].
  destruct (Z.ltb_spec 0 (width s)); [|lia].
  destruct (Z.ltb_spec 0 (fst hw)); [|lia].
  destruct (Z.ltb_spec 0 (snd hw)); [|lia].
  reflexivity.
Qed.


Lemma interpolate_ok (size : option (Z * Z)) (k : option Z) (x v : Value) :
  forward (Interpolate size k) x = Ok v ->
  exists s hw, x = Tensor s /\ v = Tensor (with_spatial hw s)
               /\ (forall sz, size = Some sz -> hw = sz)
               /\ positive_size s /\ 0 < fst hw /\ 0 < snd hw.
Proof.
  cbn [forward]; unfold_stage. destruct x as [s|]; [|discriminate].
  assert (Hres : forall hw,
             (if (0 <? height s) && (0 <? width s) && (0 <? fst hw)
                 && (0 <? snd hw)
              then Ok (Tensor (with_spatial hw s)) else Err ShapeError) = Ok v ->
             v = Tensor (with_spatial hw s)
             /\ positive_size s /\ 0 < fst hw /\ 0 < snd hw).
  { intros hw. destruct (_ && _) eqn:E; [|discriminate].
    rewrite !andb_true_iff, !Z.ltb_lt in E.
    destruct E as (((Hh & Hw) & H1) & H2).
    intros H. injection H as <-. unfold positive_size. auto. }
  destruct size as [hw|]; [|destruct k as [k|]; [|discriminate]]; intros H;
    apply Hres in H as (-> & Hpos & H1 & H2); do 2 eexists;
    (split; [reflexivity|]); (split; [reflexivity|]);
    (split; [intros sz Hsz; congruence | auto]).
Qed.

(** ** The top-down fold of FPN *)

Lemma upsample_and_add_merge (s a : Shape) :
  positive_size s -> positive_size a ->
  forward (upsample_and_add_stage s)
    (Stream [Tensor (mkShape (batch a) (channels a) (height s) (width s));
             Tensor a])
  = Ok (Tensor (mkShape (batch a) (channels a) (height s) (width s))).
Proof.
  intros [Hh Hw] Ha. unfold upsample_and_add_stage.
  change (forward (Residual ?f) ?x) with (Residual_forward forward f x).
  unfold Residual_forward.
  rewrite interpolate_to_size by (cbn [spatial fst snd]; assumption).
  unfold with_spatial, spatial. cbn [fst snd rbind].
  apply add_values_same.
Qed.

Lemma upsample_and_add_alone (s : Shape) :
  positive_size s ->
  forward (upsample_and_add_stage s) (Tensor s) = Ok (Tensor s).
Proof.
  intros [Hh Hw]. unfold upsample_and_add_stage.
  change (forward (Residual ?f) ?x) with (Residual_forward forward f x).
  unfold Residual_forward.
  rewrite interpolate_to_size
    by (try split; cbn [spatial fst snd]; assumption).
  unfold with_spatial, spatial. cbn [fst snd rbind].
  destruct s. apply add_values_same.
Qed.

Lemma fold_apply_upsample_and_add (b c : Z) (shapes : list Shape) :
  Forall positive_size shapes ->
  forall a,
    batch a = b -> channels a = c -> positive_size a ->
    fold_apply forward (map upsample_and_add_stage shapes) (Tensor a)
      (map (fun s => Tensor (mkShape b c (height s) (width s))) shapes)
    = Ok (map (fun s => Tensor (mkShape b c (height s) (width s))) shapes).
Proof.
  induction 1 as [|s shapes Hs _ IH]; intros a Hb Hc Ha; [reflexivity|].
  cbn [map fold_apply]. subst b c.
  rewrite upsample_and_add_merge by assumption. cbn [rbind].
  rewrite IH by (reflexivity || exact Hs). reflexivity.
Qed.

Lemma smimo_upsample_and_add (b c : Z) (shapes : list Shape) :
  Forall positive_size shapes ->
  let xs := map (fun s => Tensor (mkShape b c (height s) (width s))) shapes in
  forward (SequentialMultiInputMultiOutput (map upsample_and_add_stage shapes))
          (Stream xs) = Ok (Stream xs).
Proof.
  intros Hpos xs. subst xs. cbn [forward]; unfold_stage.
  rewrite !length_map, Nat.eqb_refl. cbn [orb].
  destruct Hpos as [|s0 shapes Hs Hpos]; [reflexivity|]. cbn [map].
  pose proof (upsample_and_add_alone (mkShape b c (height s0) (width s0)) Hs)
    as H0.
  unfold upsample_and_add_stage, spatial in *.
  cbn [height width] in H0. rewrite H0. cbn [rbind].
  pose proof (fold_apply_upsample_and_add b c shapes Hpos
                (mkShape b c (height s0) (width s0)) eq_refl eq_refl Hs) as Hf.
  unfold upsample_and_add_stage, spatial in Hf. rewrite Hf. reflexivity.
Qed.

(** What the fold of an FPN returned on decides what it was handed: the
    shapes its stages were built for, at one batch size and channel
    count. *)
Lemma fold_apply_upsample_and_add_inv (shapes : list Shape) :
  forall a rest outs,
    length rest = length shapes ->
    fold_apply forward (map upsample_and_add_stage shapes) (Tensor a) rest
    = Ok outs ->
    rest = map (fun s => Tensor (mkShape (batch a) (channels a)
                                         (height s) (width s))) shapes
    /\ outs = rest.
Proof.
  induction shapes as [|s shapes IH]; intros a [|x rest] outs Hlen H;
    try discriminate Hlen; cbn [map fold_apply] in H.
  - injection H as <-. auto.
  - inv_ok. subst outs. injection Hlen as Hlen.
    unfold upsample_and_add_stage in Ha.
    apply residual_merge in Ha as [-> Hi].
    apply interpolate_ok in Hi as (a' & hw & E & -> & Hhw & _).
    injection E as <-. rewrite (Hhw _ eq_refl) in *.
    destruct (IH _ _ _ Hlen Ha0) as [Hrest ->].
    cbn [with_spatial spatial fst snd batch channels] in Hrest.
    cbn [map]. unfold with_spatial, spatial. cbn [fst snd].
    split; f_equal; assumption.
Qed.

Lemma map_Tensor_inj (l1 l2 : list Shape) :
  map Tensor l1 = map Tensor l2 -> l1 = l2.
Proof.
  revert l2. induction l1 as [|t l IH]; intros [|t2 l2] H; try discriminate;
    [reflexivity|].
  injection H as -> H. f_equal. auto.
Qed.

Lemma smimo_upsample_and_add_inv (shapes ss : list Shape) (v : Value) :
  length ss = length shapes ->
  forward (SequentialMultiInputMultiOutput (map upsample_and_add_stage shapes))
          (Stream (map Tensor ss)) = Ok v ->
  v = Stream (map Tensor ss)
  /\ exists b c,
       ss = map (fun s => mkShape b c (height s) (width s)) shapes.
Proof.
  intros Hlen H. apply smimo_inv in H as [_ H].
  destruct shapes as [|s0 shapes], ss as [|a rest]; try discriminate Hlen;
    cbn [map] in H.
  - subst v. split; [reflexivity|]. exists 0, 0. reflexivity.
  - destruct H as (acc & outs & H0 & Hfold & ->).
    unfold upsample_and_add_stage in H0.
    apply residual_alone in H0 as [-> Hi].
    apply interpolate_ok in Hi as (a' & hw & E & E' & Hhw & _).
    injection E as <-. injection E' as E'. rewrite (Hhw _ eq_refl) in E'.
    injection Hlen as Hlen.
    destruct (fold_apply_upsample_and_add_inv shapes a (map Tensor rest) outs)
      as [Hrest ->]; [rewrite length_map; assumption | assumption |].
    split; [reflexivity|]. exists (batch a), (channels a). cbn [map].
    rewrite <- (map_map (fun s => mkShape (batch a) (channels a) (height s)
                                          (width s)) Tensor) in Hrest.
    apply map_Tensor_inj in Hrest. f_equal; [|assumption].
    rewrite E' at 1. unfold with_spatial, spatial. reflexivity.
Qed.

(** ** FPN *)

Lemma rbind_ret {A : Type} (r : Result A) : rbind r (fun a => Ok a) = r.
Proof. destruct r; reflexivity. Qed.

Lemma forward_Reverse (vs : list Value) :
  forward Reverse (Stream vs) = Ok (Stream (rev vs)).
Proof. reflexivity. Qed.

Lemma Forall_rev' {A : Type} (P : A -> Prop) (l : list A) :
  Forall P l -> Forall P (rev l).
Proof.
  intros H. apply Forall_forall. intros a Ha. apply in_rev in Ha.
  revert a Ha. apply Forall_forall. assumption.
Qed.

Lemma Forall_positive_size_map (f : Shape -> Shape) (shapes : list Shape) :
  (forall s, height (f s) = height s /\ width (f s) = width s) ->
  Forall positive_size shapes -> Forall positive_size (map f shapes).
Proof.
  intros Hf H. induction H as [|s l [Hh Hw] _ IH]; simpl; constructor; auto.
  destruct (Hf s) as [Eh Ew]. unfold positive_size. rewrite Eh, Ew. auto.
Qed.

Lemma nonempty_levels_positive (shapes : list Shape) :
  Forall nonempty_level shapes -> Forall positive_size shapes.
Proof. apply Forall_impl. intros s [_ H]. exact H. Qed.

Lemma nonempty_levels_rechannel (c : Z) (shapes : list Shape) :
  0 < c -> Forall nonempty_level shapes ->
  Forall nonempty_level (map (rechannel c) shapes).
Proof.
  intros Hc H. induction H as [|s l [_ Hs] _ IH]; cbn [map]; constructor; auto.
  split; [exact Hc | exact Hs].
Qed.

Lemma FPN_unfold (shapes : list Shape) (hc oc : Z) (v : Value) :
  forward (FPN shapes hc oc) v =
  (v1 <- forward Reverse v ;;
   v2 <- forward (Parallel (map (fun s => Conv2d (channels s) hc 1 0)
                                (rev shapes))) v1 ;;
   v3 <- forward (SequentialMultiInputMultiOutput
                    (map upsample_and_add_stage (rev shapes))) v2 ;;
   v4 <- forward (Parallel (map (fun _ => Conv2d hc oc 3 1) (rev shapes))) v3 ;;
   forward Reverse v4).
Proof.
  unfold FPN, upsample_and_add_stage.
  change (forward (Sequential ?l) v) with (chain_apply forward l v).
  cbn [chain_apply].
  repeat (match goal with
          | |- rbind ?r _ = rbind ?r _ => destruct r; cbn [rbind]; [|reflexivity]
          end).
  apply rbind_ret.
Qed.

Lemma FPN_forward_ok (shapes : list Shape) (hc oc b : Z) :
  0 < hc -> 0 < oc -> Forall nonempty_level shapes ->
  forward (FPN shapes hc oc) (Stream (map (fun s => Tensor (at_batch b s)) shapes))
  = Ok (Stream (map (fun s => Tensor (mkShape b oc (height s) (width s)))
                    shapes)).
Proof.
  intros Hhc Hoc Hne. rewrite FPN_unfold.
  assert (Hrev : Forall nonempty_level (rev shapes)) by (apply Forall_rev'; auto).
  rewrite forward_Reverse. cbn [rbind]. rewrite <- map_rev.
  rewrite (parallel_map _ _
             (fun s => Tensor (mkShape b hc (height s) (width s)))).
  2:{ intros s Hs. rewrite Forall_forall in Hrev.
      destruct (Hrev s Hs) as (Hc & Hh & Hw).
      apply conv2d_same_size; auto; lia. }
  cbn [rbind].
  rewrite (smimo_upsample_and_add b hc)
    by (apply nonempty_levels_positive; assumption).
  cbn [rbind].
  rewrite (parallel_map _ _
             (fun s => Tensor (mkShape b oc (height s) (width s)))).
  2:{ intros s Hs. rewrite Forall_forall in Hrev.
      destruct (Hrev s Hs) as (Hc & Hh & Hw).
      apply (conv2d_same_size hc oc 3 1); auto; lia. }
  cbn [rbind]. rewrite forward_Reverse, <- map_rev, rev_involutive.
  reflexivity.
Qed.

Lemma levels_at_batch (b c hc : Z) (l1 : list Shape) :
  forall l2,
    map (with_channels hc) l1
    = map (fun s => mkShape b c (height s) (width s)) l2 ->
    map channels l1 = map channels l2 ->
    l1 = map (at_batch b) l2.
Proof.
  induction l1 as [|t l1 IH]; intros [|s l2] H Hc; try discriminate;
    [reflexivity|].
  cbn [map] in *. injection H as Hb _ Hh Hw H. injection Hc as Hc Hcs.
  f_equal; [|auto]. destruct t. unfold at_batch.
  cbn [batch channels height width] in *. congruence.
Qed.

(** An FPN returns on nothing but the levels it was built for, at one batch
    size. *)
Lemma FPN_forward_inv_exact (shapes : list Shape) (hc oc : Z) (v r : Value) :
  forward (FPN shapes hc oc) v = Ok r ->
  exists b,
    v = Stream (map (fun s => Tensor (at_batch b s)) shapes)
    /\ r = Stream (map (fun s => Tensor (mkShape b oc (height s) (width s)))
                       shapes).
Proof.
  rewrite FPN_unfold. intros H. inv_ok.
  destruct v as [|vs]; [discriminate|].
  rewrite forward_Reverse in Ha. injection Ha as <-.
  apply parallel_inv in Ha0 as (xs & ys & Hx & Hlen & Hzip & ->).
  injection Hx as <-.
  pose proof Hzip as Hzip'.
  apply zip_apply_projects with (oc := hc) in Hzip as (ss1 & Hss1 & ->);
    [|apply Forall_forall; intros m Hm; apply in_map_iff in Hm as (s & <- & _);
      apply conv2d_projects; reflexivity | assumption].
  rewrite Hss1 in Hzip', Hlen. rewrite !length_map in Hlen.
  apply zip_apply_in_convs_channels in Hzip'; [|assumption].
  apply smimo_upsample_and_add_inv in Ha1 as [-> (b & c & Hfold)];
    [|rewrite length_map; assumption].
  pose proof (levels_at_batch _ _ _ _ _ Hfold Hzip') as Hlv.
  apply parallel_inv in Ha2 as (xs & ys & Hx & Hlen2 & Hzip & ->).
  injection Hx as <-.
  apply zip_apply_projects with (oc := oc) in Hzip as (ss2 & Hss2 & ->);
    [|apply Forall_forall; intros m Hm; apply in_map_iff in Hm as (s & <- & _);
      apply conv2d_projects; reflexivity | assumption].
  rewrite forward_Reverse in H. injection H as <-.
  apply map_Tensor_inj in Hss2. subst ss2.
  exists b. split.
  - apply (f_equal (@rev Value)) in Hss1. rewrite rev_involutive in Hss1.
    rewrite Hss1, Hlv. rewrite <- ?map_rev, ?rev_involutive, ?map_map.
    reflexivity.
  - rewrite Hlv. rewrite <- ?map_rev, ?rev_involutive, ?map_map.
    reflexivity.
Qed.

Lemma FPN_forward_inv (shapes : list Shape) (hc oc : Z) (v r : Value) :
  forward (FPN shapes hc oc) v = Ok r ->
  exists ss, v = Stream (map Tensor ss) /\ length ss = length shapes /\
    r = Stream (map Tensor (map (with_channels oc) ss)).
Proof.
  intros H. apply FPN_forward_inv_exact in H as (b & -> & ->).
  exists (map (at_batch b) shapes). rewrite !map_map, length_map.
  repeat split; reflexivity.
Qed.

(** ** PANetFPN *)

Lemma PANetFPN_unfold (shapes : list Shape) (hc oc : Z) (v : Value) :
  forward (PANetFPN shapes hc oc) v =
  (v1 <- forward (FPN shapes hc hc) v ;;
   v2 <- forward Reverse v1 ;;
   v3 <- forward (FPN (rev (map (rechannel hc) shapes)) hc oc) v2 ;;
   forward Reverse v3).
Proof.
  unfold PANetFPN.
  change (forward (Sequential ?l) v) with (chain_apply forward l v).
  cbn [chain_apply]. unfold rechannel.
  repeat (match goal with
          | |- rbind ?r _ = rbind ?r _ => destruct r; cbn [rbind]; [|reflexivity]
          end).
  apply rbind_ret.
Qed.

Lemma PANetFPN_forward_ok (shapes : list Shape) (hc oc b : Z) :
  0 < hc -> 0 < oc -> Forall nonempty_level shapes ->
  forward (PANetFPN shapes hc oc)
          (Stream (map (fun s => Tensor (at_batch b s)) shapes))
  = Ok (Stream (map (fun s => Tensor (mkShape b oc (height s) (width s)))
                    shapes)).
Proof.
  intros Hhc Hoc Hne. rewrite PANetFPN_unfold, FPN_forward_ok by assumption.
  cbn [rbind]. rewrite forward_Reverse. cbn [rbind].
  rewrite <- !map_rev.
  replace (map (fun s => Tensor (mkShape b hc (height s) (width s)))
               (rev shapes))
    with (map (fun s => Tensor (at_batch b s))
              (map (rechannel hc) (rev shapes))).
  2:{ rewrite map_map. reflexivity. }
  rewrite FPN_forward_ok;
    [|assumption|assumption|
      apply nonempty_levels_rechannel, Forall_rev'; assumption].
  cbn [rbind]. rewrite forward_Reverse, map_map, <- map_rev, rev_involutive.
  reflexivity.
Qed.

Lemma PANetFPN_forward_inv_exact (shapes : list Shape) (hc oc : Z)
    (v r : Value) :
  forward (PANetFPN shapes hc oc) v = Ok r ->
  exists b,
    v = Stream (map (fun s => Tensor (at_batch b s)) shapes)
    /\ r = Stream (map (fun s => Tensor (mkShape b oc (height s) (width s)))
                       shapes).
Proof.
  rewrite PANetFPN_unfold. intros H. inv_ok.
  apply FPN_forward_inv_exact in Ha as (b & -> & ->).
  rewrite forward_Reverse in Ha0. injection Ha0 as <-.
  apply FPN_forward_inv_exact in Ha1 as (b2 & Hin & ->).
  rewrite forward_Reverse in H. injection H as <-.
  exists b. split; [reflexivity|].
  injection Hin as Hin. rewrite <- !map_rev, !map_map in Hin.
  f_equal. rewrite <- !map_rev, rev_involutive, map_map.
  destruct shapes as [|s0 rest]; [reflexivity|].
  assert (Hb : b2 = b).
  { apply (f_equal (@rev Value)) in Hin. rewrite <- !map_rev in Hin.
    rewrite rev_involutive in Hin. cbn [map] in Hin.
    injection Hin as Hb _. congruence. }
  subst b2. reflexivity.
Qed.

Lemma PANetFPN_forward_inv (shapes : list Shape) (hc oc : Z) (v r : Value) :
  forward (PANetFPN shapes hc oc) v = Ok r ->
  exists ss, v = Stream (map Tensor ss) /\ length ss = length shapes /\
    r = Stream (map Tensor (map (with_channels oc) ss)).
Proof.
  intros H. apply PANetFPN_forward_inv_exact in H as (b & -> & ->).
  exists (map (at_batch b) shapes). rewrite !map_map, length_map.
  repeat split; reflexivity.
Qed.

(** ** Claims about the fold and the FPN wirings *)

(** C1.  A SequentialMultiInputMultiOutput of N stages, called with an
    external input Stream of length N, returns a Stream of length N.  It
    preserves the order of the external inputs: output 0 is stage 0 applied
    to external input 0, and output i is stage i applied to external input i
    and the output before it.  When the merge stages resample to match (what
    a stage returns has the spatial shape of the external input it is
    handed), output i has the spatial shape of external input i, for every
    i.  The stages of the FPN wiring, each a Residual wrapping an
    Interpolate, resample to match; and on levels of the sizes the stages
    are built for (Arrays that are not empty, of one batch size and channel
    count) the fold of that wiring returns, a Stream of exactly those
    shapes. *)
Theorem smimo_outputs_follow_external_inputs :
  (forall ms xs v,
      length xs = length ms ->
      forward (SequentialMultiInputMultiOutput ms) (Stream xs) = Ok v ->
      exists outs,
        v = Stream outs /\ length outs = length xs
        /\ folds_to ms xs outs
        /\ (Forall merges_to_external_shape ms ->
            forall ss, xs = map Tensor ss ->
              map spatial_of outs = map (fun s => Some (spatial s)) ss))
  /\ (forall shapes,
      Forall merges_to_external_shape
        (map (fun s => Residual (Interpolate (Some (spatial s)) None)) shapes))
  /\ (forall shapes b c,
      0 < b -> 0 < c -> Forall positive_size shapes ->
      let xs := map (fun s => Tensor (mkShape b c (height s) (width s)))
                    shapes in
      forward (SequentialMultiInputMultiOutput
                 (map (fun s => Residual (Interpolate (Some (spatial s)) None))
                      shapes))
              (Stream xs) = Ok (Stream xs)).
Proof.
  split; [|split].
  - intros ms xs v Hlen H.
    destruct (smimo_folds _ _ _ H) as (outs & -> & Hf).
    exists outs. split; [reflexivity|].
    split; [destruct Hf as [Hl _]; congruence|].
    split; [assumption|].
    intros Hall ss ->. rewrite length_map in Hlen.
    rewrite (smimo_spatial ms ss outs Hall Hlen H), map_map. reflexivity.
  - intros shapes. apply Forall_forall. intros m Hm.
    apply in_map_iff in Hm as (s & <- & _).
    apply residual_merges_to_external_shape.
  - intros shapes b c _ _ Hpos. apply smimo_upsample_and_add. assumption.
Qed.

Lemma smimo_outputs_follow_external_inputs_witness :
  exists outs,
    Stream [Tensor (mkShape 1 32 14 14); Tensor (mkShape 1 32 28 28);
            Tensor (mkShape 1 32 56 56)] = Stream outs
    /\ length outs = 3%nat
    /\ map spatial_of outs = [Some (14, 14); Some (28, 28); Some (56, 56)].
Proof.
  destruct (proj1 smimo_outputs_follow_external_inputs
              (map (fun s => Residual (Interpolate (Some (spatial s)) None))
                   (rev scenario_shapes))
              [Tensor (mkShape 1 32 14 14); Tensor (mkShape 1 32 28 28);
               Tensor (mkShape 1 32 56 56)]
              (Stream [Tensor (mkShape 1 32 14 14); Tensor (mkShape 1 32 28 28);
                       Tensor (mkShape 1 32 56 56)])
              eq_refl eq_refl)
    as (outs & Hv & Hlen & _ & Hsp).
  exists outs. split; [exact Hv|]. split; [exact Hlen|].
  exact (Hsp (proj1 (proj2 smimo_outputs_follow_external_inputs)
                    (rev scenario_shapes))
             [mkShape 1 32 14 14; mkShape 1 32 28 28; mkShape 1 32 56 56]
             eq_refl).
Defined.

(** C5.  An FPN evaluates its input as the five steps, in this order:
    Reverse; a Parallel of 1x1 convolutions projecting each level to the
    hidden width; the SequentialMultiInputMultiOutput fold whose stages are
    Residual-wrapped Interpolate resamplers, one per level, coarsest first;
    a Parallel of 3x3 (padding 1) output convolutions; Reverse.  The fold
    is top-down: it starts from the coarsest level, and every later output
    is the stage of its level applied to that level and the output before
    it.  On a finest-first Stream of the levels the FPN was built for (not
    empty, at one positive batch size, with positive widths) the five steps
    return
    one Array per level, finest first, with the output channel count and
    the level's spatial size. *)
Theorem FPN_five_step_pipeline (shapes : list Shape) (hc oc : Z) :
  (forall v,
      forward (FPN shapes hc oc) v =
      (v1 <- forward Reverse v ;;
       v2 <- forward (Parallel (map (fun s => Conv2d (channels s) hc 1 0)
                                    (rev shapes))) v1 ;;
       v3 <- forward (SequentialMultiInputMultiOutput
                        (map (fun s => Residual
                                         (Interpolate (Some (spatial s)) None))
                             (rev shapes))) v2 ;;
       v4 <- forward (Parallel (map (fun _ => Conv2d hc oc 3 1) (rev shapes)))
                     v3 ;;
       forward Reverse v4))
  /\ (forall ms xs v,
      forward (SequentialMultiInputMultiOutput ms) (Stream xs) = Ok v ->
      exists outs, v = Stream outs /\ folds_to ms xs outs)
  /\ (forall b,
      0 < b -> 0 < hc -> 0 < oc -> Forall nonempty_level shapes ->
      forward (FPN shapes hc oc)
              (Stream (map (fun s => Tensor (at_batch b s)) shapes))
      = Ok (Stream (map (fun s => Tensor (mkShape b oc (height s) (width s)))
                        shapes))).
Proof.
  split; [|split].
  - intros v. apply FPN_unfold.
  - intros ms xs v. apply smimo_folds.
  - intros b _ Hhc Hoc Hne. apply FPN_forward_ok; assumption.
Qed.

Lemma FPN_five_step_pipeline_witness :
  forward (FPN scenario_shapes 32 5)
          (Stream [Tensor (mkShape 1 64 56 56); Tensor (mkShape 1 128 28 28);
                   Tensor (mkShape 1 256 14 14)])
  = Ok (Stream [Tensor (mkShape 1 5 56 56); Tensor (mkShape 1 5 28 28);
                Tensor (mkShape 1 5 14 14)]).
Proof.
  apply (proj2 (proj2 (FPN_five_step_pipeline scenario_shapes 32 5))
               1 eq_refl eq_refl eq_refl).
  repeat (apply Forall_cons; [repeat split|]). apply Forall_nil.
Defined.

(** C8.  A PANetFPN evaluates as a complete FPN pass over the given shapes,
    a Reverse, a second complete FPN pass built over the reversed shapes
    (now of the hidden width), and a final Reverse.  The fold stages of the
    second pass (those of an FPN are sized over its reversed shapes) are
    therefore sized in the order in which the shapes were given, the
    opposite of the first pass, and each pass folds in the order of its
    stages, every output being the stage of its level applied to that level
    and the output before it.  The final Reverse puts the result back in
    the order of the input: on the levels it was built for (not empty, at
    one positive batch size, with positive widths) a PANetFPN returns one
    Array per
    level in the order of the input, with the output channel count and the
    level's spatial size. *)
Theorem PANetFPN_two_opposite_passes (shapes : list Shape) (hc oc : Z) :
  (forall v,
      forward (PANetFPN shapes hc oc) v =
      (v1 <- forward (FPN shapes hc hc) v ;;
       v2 <- forward Reverse v1 ;;
       v3 <- forward (FPN (rev (map (rechannel hc) shapes)) hc oc) v2 ;;
       forward Reverse v3))
  /\ map (fun s => Residual (Interpolate (Some (spatial s)) None))
         (rev (rev (map (rechannel hc) shapes)))
     = map (fun s => Residual (Interpolate (Some (spatial s)) None)) shapes
  /\ (forall ms xs v,
      forward (SequentialMultiInputMultiOutput ms) (Stream xs) = Ok v ->
      exists outs, v = Stream outs /\ folds_to ms xs outs)
  /\ (forall b,
      0 < b -> 0 < hc -> 0 < oc -> Forall nonempty_level shapes ->
      forward (PANetFPN shapes hc oc)
              (Stream (map (fun s => Tensor (at_batch b s)) shapes))
      = Ok (Stream (map (fun s => Tensor (mkShape b oc (height s) (width s)))
                        shapes))).
Proof.
  split; [|split; [|split]].
  - intros v. apply PANetFPN_unfold.
  - rewrite rev_involutive, map_map. reflexivity.
  - intros ms xs v. apply smimo_folds.
  - intros b _ Hhc Hoc Hne. apply PANetFPN_forward_ok; assumption.
Qed.

Lemma PANetFPN_two_opposite_passes_witness :
  forward (PANetFPN scenario_shapes 32 5)
          (Stream [Tensor (mkShape 1 64 56 56); Tensor (mkShape 1 128 28 28);
                   Tensor (mkShape 1 256 14 14)])
  = Ok (Stream [Tensor (mkShape 1 5 56 56); Tensor (mkShape 1 5 28 28);
                Tensor (mkShape 1 5 14 14)]).
Proof.
  apply (proj2 (proj2 (proj2 (PANetFPN_two_opposite_passes
                                scenario_shapes 32 5)))
               1 eq_refl eq_refl eq_refl).
  repeat (apply Forall_cons; [repeat split|]). apply Forall_nil.
Defined.

(** ** PanopticFPN *)


Lemma forward_Sequential (ms : list Stage) (x : Value) :
  forward (Sequential ms) x = chain_apply forward ms x.
Proof. reflexivity. Qed.




Lemma half_positive (c : Z) : 0 < c / 2 -> 0 < c.
Proof.
  intros H. destruct (Z.le_gt_cases c 0) as [Hc|Hc]; [|assumption].
  assert (c / 2 <= 0) by (apply Z.div_le_upper_bound; lia). lia.
Qed.












Lemma Forall2_In_r {A B : Type} (R : A -> B -> Prop) (l1 : list A)
    (l2 : list B) :
  Forall2 R l1 l2 -> forall b, In b l2 -> exists a, R a b.
Proof.
  induction 1 as [|a b l1 l2 Hab _ IH]; intros b' Hb; [destruct Hb|].
  destruct Hb as [<-|Hb]; eauto.
Qed.





(** *** What the constructors of a PanopticFPN accept *)

Lemma forallb_map' {A B : Type} (f : B -> bool) (g : A -> B) (l : list A) :
  forallb f (map g l) = forallb (fun a => f (g a)) l.
Proof.
  induction l as [|a l IH]; cbn [map forallb]; [reflexivity|].
  rewrite IH. reflexivity.
Qed.


Lemma forallb_true' {A : Type} (f : A -> bool) (l : list A) :
  (forall a, f a = true) -> forallb f l = true.
Proof.
  intros H. induction l as [|a l IH]; cbn [forallb]; [reflexivity|].
  rewrite H, IH. reflexivity.
Qed.

Lemma upsample_once_constructible (in_c : Z) (out_c : option Z) (scale : Z)
    (size : option (Z * Z)) (g : Z) :
  let oc := match out_c with None => in_c | Some c => c end in
  0 <= in_c -> 0 <= oc -> g <> 0 -> oc mod g = 0 ->
  constructible (_upsample_once in_c out_c scale size g) = true.
Proof.
  intros oc Hi Ho Hg Hm. unfold _upsample_once. fold oc.
  apply Z.leb_le in Hi, Ho. apply Z.eqb_neq in Hg. apply Z.eqb_eq in Hm.
  destruct (scale =? 1); [|destruct size];
    cbn [constructible forallb app]; rewrite Hi, Ho, Hg, Hm; reflexivity.
Qed.

Lemma upsample_feat_constructible (c num_up : Z) (size : Z * Z) (g : Z) :
  0 < g -> c mod g = 0 -> (c / 2) mod g = 0 -> 0 < c / 2 ->
  constructible (_upsample_feat c num_up size g) = true.
Proof.
  intros Hg Hm Hm2 Hc2. pose proof (half_positive c Hc2) as Hc.
  unfold _upsample_feat. destruct (num_up =? 0).
  - apply upsample_once_constructible; lia.
  - cbn [constructible]. rewrite forallb_app. cbn [forallb].
    rewrite upsample_once_constructible by lia.
    rewrite andb_true_r. apply forallb_forall. intros m Hin.
    apply repeat_spec in Hin. subst m.
    apply upsample_once_constructible; lia.
Qed.

Lemma in_convs_constructible (shapes : list Shape) (hc : Z) :
  0 <= hc -> Forall (fun s => 0 <= channels s) shapes ->
  forallb constructible (map (fun s => Conv2d (channels s) hc 1 0) shapes)
  = true.
Proof.
  intros Hhc Hall. apply forallb_forall. intros m Hin.
  apply in_map_iff in Hin as (s & <- & Hs). rewrite Forall_forall in Hall.
  specialize (Hall s Hs). cbn [constructible].
  apply Z.leb_le in Hhc, Hall. rewrite Hhc, Hall. reflexivity.
Qed.

Lemma nonempty_levels_channels (shapes : list Shape) :
  Forall nonempty_level shapes -> Forall (fun s => 0 <= channels s) shapes.
Proof. apply Forall_impl. intros s [H _]. lia. Qed.

(** PanopticFPN is built, whatever the length of [num_ups], once the
    constructors of its layers accept their arguments. *)
Lemma PanopticFPN_built (s0 : Shape) (rest : list Shape) (hc oc : Z)
    (num_ups : option (list Z)) (g : Z) :
  0 < g -> hc mod g = 0 -> (hc / 2) mod g = 0 -> 0 < hc / 2 -> 0 <= oc ->
  Forall (fun s => 0 <= channels s) (s0 :: rest) ->
  PanopticFPN (s0 :: rest) hc oc num_ups g
  = Ok (Sequential
          [Parallel (map (fun s => Conv2d (channels s) hc 1 0) (s0 :: rest));
           _make_upsamplers hc (spatial s0)
             (match num_ups with
              | None => map Z.of_nat (seq 0 (length (s0 :: rest)))
              | Some l => l
              end) g;
           AddTensors;
           Conv2d (hc / 2) oc 1 0]).
Proof.
  intros Hg Hm Hm2 Hc2 Hoc Hch. pose proof (half_positive hc Hc2) as Hhc.
  unfold PanopticFPN, construct.
  match goal with
  | |- (if constructible ?m then _ else _) = _ =>
      assert (E : constructible m = true); [|rewrite E; reflexivity]
  end.
  cbn [constructible forallb].
  rewrite in_convs_constructible by (assumption || lia).
  unfold _make_upsamplers. cbn [constructible].
  rewrite forallb_map', (forallb_true' _ _
    (fun u => upsample_feat_constructible hc u (spatial s0) g Hg Hm Hm2 Hc2)).
  apply Z.leb_le in Hoc.
  assert (Hh : (0 <=? hc / 2) = true) by (apply Z.leb_le; lia).
  rewrite Hoc, Hh. reflexivity.
Qed.










(** ** SplitTensor on contents *)

Lemma sum_list_nonneg (sizes : list Z) :
  Forall (fun k => 0 <= k) sizes -> 0 <= sum_list sizes.
Proof. induction 1; cbn [sum_list]; lia. Qed.

Lemma forallb_nonneg (sizes : list Z) :
  forallb (fun k => 0 <=? k) sizes = true -> Forall (fun k => 0 <= k) sizes.
Proof.
  intros H. apply Forall_forall. intros k Hk.
  rewrite forallb_forall in H. apply Z.leb_le. auto.
Qed.

Lemma split_with_sizes_concat (sizes : list Z) :
  Forall (fun k => 0 <= k) sizes ->
  forall planes : list Plane,
    sum_list sizes = Z.of_nat (length planes) ->
    concat (split_with_sizes sizes planes) = planes.
Proof.
  induction 1 as [|k ks Hk Hks IH]; intros planes Hsum;
    cbn [sum_list split_with_sizes concat] in *.
  - destruct planes; [reflexivity | cbn [length] in Hsum; lia].
  - pose proof (sum_list_nonneg ks Hks) as Hnn.
    rewrite IH; [apply firstn_skipn|].
    rewrite length_skipn. lia.
Qed.

Lemma split_with_sizes_lengths (sizes : list Z) :
  Forall (fun k => 0 <= k) sizes ->
  forall planes : list Plane,
    sum_list sizes = Z.of_nat (length planes) ->
    map (fun chunk => Z.of_nat (length chunk)) (split_with_sizes sizes planes)
    = sizes.
Proof.
  induction 1 as [|k ks Hk Hks IH]; intros planes Hsum;
    cbn [sum_list split_with_sizes map] in *; [reflexivity|].
  pose proof (sum_list_nonneg ks Hks) as Hnn.
  rewrite IH by (rewrite length_skipn; lia).
  rewrite length_firstn. f_equal. lia.
Qed.

Lemma split_tensor_ok (sizes : list Z) (x : Array) (chunks : list Array) :
  split_tensor sizes x = Ok chunks ->
  Forall (fun k => 0 <= k) sizes
  /\ sum_list sizes = Z.of_nat (length (a_planes x))
  /\ chunks = map (fun chunk => mkArray (a_batch x) chunk (a_height x)
                                        (a_width x))
                  (split_with_sizes sizes (a_planes x)).
Proof.
  unfold split_tensor. destruct (forallb _ sizes) eqn:Ef; [|discriminate].
  destruct (Z.eqb_spec (sum_list sizes) (Z.of_nat (length (a_planes x))));
    [|discriminate].
  cbn [andb]. intros H. injection H as <-.
  auto using forallb_nonneg.
Qed.

(** C9.  SplitTensor followed by concatenation along the channel axis, in
    Stream order, gives back the channel planes of the original Array, each
    chunk keeping the original batch, height and width and holding the
    configured number of channels; every partition of C (non-negative sizes
    that sum to C) is accepted, as is the partition (3, C - 3) that
    make_segm_fpn_efficientnet configures for C > 3; and SplitTensor errors
    when the sizes do not sum to C, on contents and on shapes alike. *)
Theorem split_tensor_cat_roundtrip (sizes : list Z) (x : Array) :
  (forall chunks,
      split_tensor sizes x = Ok chunks ->
      cat_channels chunks = a_planes x
      /\ Forall (fun chunk => a_batch chunk = a_batch x
                              /\ a_height chunk = a_height x
                              /\ a_width chunk = a_width x) chunks
      /\ map (fun chunk => Z.of_nat (length (a_planes chunk))) chunks = sizes
      /\ forward (SplitTensor sizes) (Tensor (shape_of x))
         = Ok (Stream (map (fun chunk => Tensor (shape_of chunk)) chunks)))
  /\ (Forall (fun k => 0 <= k) sizes ->
      sum_list sizes = Z.of_nat (length (a_planes x)) ->
      exists chunks, split_tensor sizes x = Ok chunks)
  /\ (3 < Z.of_nat (length (a_planes x)) ->
      exists rgb extra,
        split_tensor [3; Z.of_nat (length (a_planes x)) - 3] x
        = Ok [rgb; extra]
        /\ a_planes rgb = firstn 3 (a_planes x)
        /\ a_planes extra = skipn 3 (a_planes x))
  /\ (sum_list sizes <> Z.of_nat (length (a_planes x)) ->
      split_tensor sizes x = Err ShapeError
      /\ forward (SplitTensor sizes) (Tensor (shape_of x)) = Err ShapeError).
Proof.
  split; [|split; [|split]].
  - intros chunks H. apply split_tensor_ok in H as (Hnn & Hsum & ->).
    unfold cat_channels. rewrite !map_map. cbn [a_planes].
    rewrite map_id, (split_with_sizes_concat sizes Hnn _ Hsum).
    split; [reflexivity|]. split; [|split].
    + apply Forall_forall. intros chunk Hc.
      apply in_map_iff in Hc as (planes & <- & _). auto.
    + apply split_with_sizes_lengths; assumption.
    + cbn [forward]; unfold_stage. unfold shape_of at 1. cbn [channels].
      assert (Hf : forallb (fun k => 0 <=? k) sizes = true).
      { apply forallb_forall. intros k Hk. apply Z.leb_le.
        rewrite Forall_forall in Hnn. auto. }
      rewrite Hf. apply Z.eqb_eq in Hsum. rewrite Hsum. cbn [andb].
      do 2 f_equal. unfold shape_of, with_channels. cbn.
      rewrite <- (split_with_sizes_lengths sizes Hnn (a_planes x))
        at 1 by (apply Z.eqb_eq; assumption).
      rewrite map_map. reflexivity.
  - intros Hnn Hsum. unfold split_tensor.
    assert (Hf : forallb (fun k => 0 <=? k) sizes = true).
    { apply forallb_forall. intros k Hk. apply Z.leb_le.
      rewrite Forall_forall in Hnn. auto. }
    rewrite Hf. apply Z.eqb_eq in Hsum. rewrite Hsum. cbn [andb]. eauto.
  - intros HC. unfold split_tensor. cbn [forallb sum_list].
    destruct (Z.leb_spec 0 (Z.of_nat (length (a_planes x)) - 3)); [|lia].
    destruct (Z.eqb_spec (3 + (Z.of_nat (length (a_planes x)) - 3 + 0))
                         (Z.of_nat (length (a_planes x)))); [|lia].
    cbn [andb Z.leb Z.compare split_with_sizes map].
    do 2 eexists. split; [reflexivity|]. cbn [a_planes]. split; [reflexivity|].
    apply firstn_all2. rewrite length_skipn. lia.
  - intros Hsum. unfold split_tensor. cbn [forward]; unfold_stage.
    unfold shape_of. cbn [channels].
    apply Z.eqb_neq in Hsum. rewrite Hsum, andb_false_r. auto.
Qed.

Lemma split_tensor_cat_roundtrip_witness :
  cat_channels
    [mkArray 1 [[1]; [2]; [3]] 1 1; mkArray 1 [[4]; [5]] 1 1]
  = [[1]; [2]; [3]; [4]; [5]].
Proof.
  exact (proj1 (proj1 (split_tensor_cat_roundtrip
                         [3; 2] (mkArray 1 [[1]; [2]; [3]; [4]; [5]] 1 1))
                      [mkArray 1 [[1]; [2]; [3]] 1 1;
                       mkArray 1 [[4]; [5]] 1 1]
                      eq_refl)).
Defined.

(** ** The shape probe *)

Section Probe.
Variable run : Stage -> bool -> bool -> Array -> Outcome (list Array).
Variables (m : Stage) (ch sz : Z) (w : World).

Lemma shape_of_probe_array :
  0 <= ch -> shape_of (probe_array w ch sz) = mkShape 1 ch sz sz.
Proof.
  intros Hch. unfold shape_of, probe_array. cbn [a_batch a_planes a_height a_width].
  rewrite length_map, length_seq, Z2Nat.id by assumption. reflexivity.
Qed.

Lemma torch_empty_probe (w1 : World) :
  0 <= ch -> 0 <= sz -> heap w1 = heap w ->
  torch_empty (mkShape 1 ch sz sz) w1 = (Return (probe_array w ch sz), w1).
Proof.
  intros Hch Hsz Hheap. unfold torch_empty. cbn [batch channels height width].
  destruct (Z.ltb_spec ch 0); [lia|]. destruct (Z.ltb_spec sz 0); [lia|].
  cbn [orb Z.ltb Z.compare]. unfold probe_array. rewrite Hheap. reflexivity.
Qed.

Lemma torch_empty_negative (w1 : World) :
  ch < 0 \/ sz < 0 ->
  torch_empty (mkShape 1 ch sz sz) w1 = (Raise RuntimeError, w1).
Proof.
  intros H. unfold torch_empty. cbn [batch channels height width].
  destruct (Z.ltb_spec ch 0), (Z.ltb_spec sz 0); try reflexivity. lia.
Qed.

Lemma get_shapes_returns (feats : list Array) :
  0 <= ch -> 0 <= sz ->
  run m false false (probe_array w ch sz) = Return feats ->
  _get_shapes run m ch sz w
  = (Return (map shape_of feats),
     mkWorld (training w) (grad_enabled w) (heap w)
             (calls w ++ [mkCall false false (probe_array w ch sz)])).
Proof.
  intros Hch Hsz Hrun. unfold _get_shapes, mbind, get_training, train, no_grad.
  cbn [training grad_enabled heap calls set_grad_enabled].
  rewrite torch_empty_probe by (assumption || reflexivity).
  unfold call_stage, set_grad_enabled.
  cbn [training grad_enabled heap calls].
  rewrite Hrun. reflexivity.
Qed.

Lemma get_shapes_raises (e : Exn) :
  0 <= ch -> 0 <= sz ->
  run m false false (probe_array w ch sz) = Raise e ->
  _get_shapes run m ch sz w
  = (Raise e,
     mkWorld false (grad_enabled w) (heap w)
             (calls w ++ [mkCall false false (probe_array w ch sz)])).
Proof.
  intros Hch Hsz Hrun. unfold _get_shapes, mbind, get_training, train, no_grad.
  cbn [training grad_enabled heap calls set_grad_enabled].
  rewrite torch_empty_probe by (assumption || reflexivity).
  unfold call_stage, set_grad_enabled.
  cbn [training grad_enabled heap calls].
  rewrite Hrun. reflexivity.
Qed.

Lemma get_shapes_negative :
  ch < 0 \/ sz < 0 ->
  _get_shapes run m ch sz w
  = (Raise RuntimeError, mkWorld false (grad_enabled w) (heap w) (calls w)).
Proof.
  intros H. unfold _get_shapes, mbind, get_training, train, no_grad.
  cbn [training grad_enabled heap calls set_grad_enabled].
  rewrite torch_empty_negative by assumption. reflexivity.
Qed.
End Probe.

(** The probe Array is zero only if the stale words are. *)
Lemma all_zero_probe_array (w : World) (ch sz : Z) :
  0 < ch -> 0 < sz -> heap w 0%nat <> 0 ->
  all_zero (probe_array w ch sz) = false.
Proof.
  intros Hch Hsz Hw. unfold all_zero, probe_array. cbn [a_planes].
  destruct (Z.to_nat ch) as [|k] eqn:Ek; [lia|].
  destruct (Z.to_nat (1 * sz * sz)) as [|j] eqn:Ej; [nia|].
  cbn [seq map forallb Nat.mul]. apply Z.eqb_neq in Hw. rewrite Hw.
  reflexivity.
Qed.

(** [torch.empty] does not write the storage it allocates: with stale words
    0x3F800000 the Array the probe hands to the backbone is not all-zero. *)
Lemma get_shapes_probe_is_not_zeroed :
  map (fun c => all_zero (call_input c))
      (calls (snd (_get_shapes shape_runtime
                     (EfficientNetFeatureMapsExtractor (three_level_net 3))
                     3 16 (fresh_world 1065353216))))
  = [false].
Proof. vm_compute. reflexivity. Qed.

(** C2 (as amended).  Given a backbone, a channel count and a spatial size,
    the probe builds one Array of shape (1, ch, sz, sz) whose words are
    whatever the allocator hands out (zero only if those happen to be zero),
    evaluates the backbone on it exactly once, with the training flag off
    and gradients disabled, and returns the shape of every element of the
    resulting Stream. *)
Theorem get_shapes_probes_once_in_inference_mode
    (run : Stage -> bool -> bool -> Array -> Outcome (list Array))
    (m : Stage) (ch sz : Z) (w : World) (feats : list Array) :
  0 <= ch -> 0 <= sz ->
  run m false false (probe_array w ch sz) = Return feats ->
  shape_of (probe_array w ch sz) = mkShape 1 ch sz sz
  /\ (0 < ch -> 0 < sz -> heap w 0%nat <> 0 ->
      all_zero (probe_array w ch sz) = false)
  /\ exists w',
      _get_shapes run m ch sz w = (Return (map shape_of feats), w')
      /\ calls w' = calls w ++ [mkCall false false (probe_array w ch sz)]
      /\ grad_enabled w' = grad_enabled w.
Proof.
  intros Hch Hsz Hrun. split; [apply shape_of_probe_array; assumption|].
  split; [apply all_zero_probe_array|].
  eexists. split; [apply get_shapes_returns; eassumption|].
  split; reflexivity.
Qed.

Lemma get_shapes_probes_once_in_inference_mode_witness :
  exists w',
    _get_shapes shape_runtime
      (EfficientNetFeatureMapsExtractor (three_level_net 3)) 3 16
      (fresh_world 1065353216)
    = (Return [mkShape 1 64 4 4; mkShape 1 128 2 2; mkShape 1 256 1 1], w')
    /\ length (calls w') = 1%nat.
Proof.
  destruct (get_shapes_probes_once_in_inference_mode shape_runtime
              (EfficientNetFeatureMapsExtractor (three_level_net 3)) 3 16
              (fresh_world 1065353216)
              (map array_of_shape
                   [mkShape 1 64 4 4; mkShape 1 128 2 2; mkShape 1 256 1 1])
              ltac:(lia) ltac:(lia) eq_refl)
    as (_ & _ & w' & Hrun & Hcalls & _).
  exists w'. split; [exact Hrun|]. rewrite Hcalls. reflexivity.
Defined.

(** C3, on the code.  When the probing forward pass returns, the training
    flag is put back to what it was.  When it raises (or when allocating
    the probe Array raises), the exception leaves [_get_shapes] before
    [m.train(state)] runs: the flag stays off whatever it was before,
    although the autograd mode, guarded by the [with] block, is put back. *)
Theorem get_shapes_training_flag_after_probe
    (run : Stage -> bool -> bool -> Array -> Outcome (list Array))
    (m : Stage) (ch sz : Z) (w : World) :
  (forall feats,
      0 <= ch -> 0 <= sz ->
      run m false false (probe_array w ch sz) = Return feats ->
      training (snd (_get_shapes run m ch sz w)) = training w)
  /\ (forall e,
      0 <= ch -> 0 <= sz ->
      run m false false (probe_array w ch sz) = Raise e ->
      fst (_get_shapes run m ch sz w) = Raise e
      /\ training (snd (_get_shapes run m ch sz w)) = false
      /\ grad_enabled (snd (_get_shapes run m ch sz w)) = grad_enabled w)
  /\ (ch < 0 \/ sz < 0 ->
      fst (_get_shapes run m ch sz w) = Raise RuntimeError
      /\ training (snd (_get_shapes run m ch sz w)) = false).
Proof.
  split; [|split].
  - intros feats Hch Hsz Hrun.
    rewrite (get_shapes_returns run m ch sz w feats) by assumption.
    reflexivity.
  - intros e Hch Hsz Hrun.
    rewrite (get_shapes_raises run m ch sz w e) by assumption. auto.
  - intros H. rewrite (get_shapes_negative run m ch sz w) by assumption. auto.
Qed.

Lemma get_shapes_training_flag_after_probe_witness :
  training (fresh_world 0) = true
  /\ fst (_get_shapes shape_runtime
            (EfficientNetFeatureMapsExtractor (three_level_net 3)) 2 16
            (fresh_world 0))
     = Raise (StageError ShapeError)
  /\ training (snd (_get_shapes shape_runtime
                      (EfficientNetFeatureMapsExtractor (three_level_net 3))
                      2 16 (fresh_world 0)))
     = false.
Proof.
  split; [reflexivity|].
  destruct (proj1 (proj2 (get_shapes_training_flag_after_probe shape_runtime
                   (EfficientNetFeatureMapsExtractor (three_level_net 3))
                   2 16 (fresh_world 0)))
                  (StageError ShapeError) ltac:(lia) ltac:(lia) eq_refl)
    as (Hr & Ht & _).
  split; [exact Hr | exact Ht].
Defined.

(** ** The segmentation factories *)

Lemma mbind_returns {A B : Type} (c : M A) (k : A -> M B) (w w' : World)
    (b : B) :
  mbind c k w = (Return b, w') ->
  exists a w1, c w = (Return a, w1) /\ k a w1 = (Return b, w').
Proof.
  unfold mbind. destruct (c w) as [[a|e] w1]; [eauto | discriminate].
Qed.



Lemma FPN_constructible (shapes : list Shape) (hc oc : Z) :
  0 <= hc -> 0 <= oc -> Forall (fun s => 0 <= channels s) shapes ->
  constructible (FPN shapes hc oc) = true.
Proof.
  intros Hhc Hoc Hch. unfold FPN. cbn [constructible forallb].
  rewrite in_convs_constructible by (try apply Forall_rev'; assumption).
  rewrite !forallb_map'.
  rewrite (forallb_true' (fun s => constructible
                            (Residual (Interpolate (Some (spatial s)) None))))
    by reflexivity.
  rewrite forallb_true'; [reflexivity|].
  intros s. cbn [constructible]. apply Z.leb_le in Hhc, Hoc.
  rewrite Hhc, Hoc. reflexivity.
Qed.

Lemma PANetFPN_constructible (shapes : list Shape) (hc oc : Z) :
  0 <= hc -> 0 <= oc -> Forall (fun s => 0 <= channels s) shapes ->
  constructible (PANetFPN shapes hc oc) = true.
Proof.
  intros Hhc Hoc Hch. unfold PANetFPN. cbn [constructible forallb].
  rewrite !FPN_constructible; auto.
  apply Forall_rev'. apply Forall_forall. intros s Hs.
  apply in_map_iff in Hs as (t & <- & _). assumption.
Qed.

Lemma select_fpn_invalid (fpn_type : string) (shapes : list Shape)
    (hc nc : Z) :
  valid_fpn_type fpn_type = false ->
  select_fpn fpn_type shapes hc nc = raise NotImplementedError.
Proof.
  unfold valid_fpn_type, select_fpn. intros H.
  apply orb_false_iff in H as [H H3]. apply orb_false_iff in H as [H1 H2].
  rewrite H1, H2, H3. reflexivity.
Qed.


Lemma multiple_of_32_half (hc : Z) : 0 < hc -> hc mod 32 = 0 -> 0 < hc / 2.
Proof.
  intros Hhc Hm. pose proof (Z.div_mod hc 32 ltac:(lia)) as Hd.
  assert (16 <= hc / 2) by (apply Z.div_le_lower_bound; lia). lia.
Qed.

Lemma head_runs_ladders (s0 : Shape) (rest : list Shape) (hc nc : Z) :
  head_runs "panoptic" (s0 :: rest) hc nc ->
  ladder_runs hc 32 (spatial s0).
Proof.
  intros (Hhc & _ & _ & Hne & Hp). destruct (Hp eq_refl) as [Hm Hm2].
  inversion Hne as [|? ? (_ & Hh & Hw) _]; subst.
  repeat split; auto using multiple_of_32_half; lia.
Qed.

(** A selector of the fixed set names a head that PyTorch builds, given a
    configuration on which the head runs. *)
Lemma select_fpn_builds (fpn_type : string) (shapes : list Shape)
    (hc nc : Z) :
  valid_fpn_type fpn_type = true ->
  head_runs fpn_type shapes hc nc ->
  exists fpn, forall w, select_fpn fpn_type shapes hc nc w = (Return fpn, w).
Proof.
  unfold valid_fpn_type, select_fpn. intros Hv Hr.
  pose proof Hr as (Hhc & Hnc & Hnil & Hne & Hp).
  pose proof (nonempty_levels_channels _ Hne) as Hch.
  destruct (String.eqb_spec fpn_type "fpn") as [->|_].
  { eexists. intros w. unfold construct. cbn [constructible forallb].
    rewrite FPN_constructible by (assumption || lia). reflexivity. }
  destruct (String.eqb_spec fpn_type "panoptic") as [->|_].
  { destruct shapes as [|s0 rest]; [contradiction|].
    destruct (head_runs_ladders _ _ _ _ Hr) as (Hg & Hm & Hm2 & Hc2 & _).
    eexists. intros w.
    rewrite PanopticFPN_built by (assumption || lia). reflexivity. }
  destruct (String.eqb_spec fpn_type "panet+fpn") as [->|_]; [|discriminate].
  eexists. intros w. unfold construct. cbn [constructible forallb].
  rewrite PANetFPN_constructible, FPN_constructible; try assumption; try lia.
  - reflexivity.
  - apply Forall_forall. intros s Hs.
    apply in_map_iff in Hs as (t & <- & _). cbn [channels]. lia.
Qed.

Lemma select_one_first (x : Value) (xs : list Value) :
  forward (SelectOne 0) (Stream (x :: xs)) = Ok x.
Proof. reflexivity. Qed.




Lemma probe_and_assemble_invalid
    (run : Stage -> bool -> bool -> Array -> Outcome (list Array))
    (backbone : Stage) (fpn_type : string) (out_size : Z * Z)
    (hc nc inc : Z) (w : World) (feats : list Array) :
  valid_fpn_type fpn_type = false ->
  0 <= inc -> 0 <= fst out_size ->
  run backbone false false (probe_array w inc (fst out_size)) = Return feats ->
  probe_and_assemble run backbone fpn_type out_size hc nc inc w
  = (Raise NotImplementedError,
     mkWorld (training w) (grad_enabled w) (heap w)
       (calls w ++ [mkCall false false (probe_array w inc (fst out_size))])).
Proof.
  intros Hft Hinc Hsz Hrun. unfold probe_and_assemble, mbind.
  rewrite (get_shapes_returns run backbone inc (fst out_size) w feats)
    by assumption.
  rewrite select_fpn_invalid by assumption. reflexivity.
Qed.

Lemma probe_and_assemble_never_returns_invalid
    (run : Stage -> bool -> bool -> Array -> Outcome (list Array))
    (backbone : Stage) (fpn_type : string) (out_size : Z * Z)
    (hc nc inc : Z) (w w' : World) (model : Stage) :
  valid_fpn_type fpn_type = false ->
  probe_and_assemble run backbone fpn_type out_size hc nc inc w
  <> (Return model, w').
Proof.
  intros Hft H. unfold probe_and_assemble in H.
  apply mbind_returns in H as (shapes & w1 & _ & H).
  apply mbind_returns in H as (fpn & w2 & H & _).
  rewrite select_fpn_invalid in H by assumption. discriminate.
Qed.


(** C4.  With a pyramid-variant selector outside 'fpn', 'panoptic' and
    'panet+fpn' neither factory ever returns a model, so that no pipeline
    exists that could be evaluated.  Whenever construction gets as far as
    the selector (the networks are loaded and the probe of the backbone
    returns), the call raises NotImplementedError, at construction time:
    no head has been built and no pipeline assembled, and the one forward
    pass on record is the probe of the backbone. *)
Theorem unknown_fpn_type_raises
    (run : Stage -> bool -> bool -> Array -> Outcome (list Array))
    (hub : string -> string -> Z -> string -> Z -> Outcome EffNet)
    (zoo : string -> bool -> Z -> Outcome (Value -> Result Value))
    (name fpn_type : string) (out_size : Z * Z) (hc nc inc : Z) (w : World) :
  valid_fpn_type fpn_type = false ->
  let probed :=
    mkWorld (training w) (grad_enabled w) (heap w)
      (calls w ++ [mkCall false false (probe_array w inc (fst out_size))]) in
  (forall pretrained,
      (forall model w',
          make_segm_fpn_efficientnet run hub name fpn_type out_size hc nc
            pretrained inc w <> (Return model, w'))
      /\ (forall effnet feats,
          inc <= 3 -> 0 <= inc -> 0 <= fst out_size ->
          hub "lukemelas/EfficientNet-PyTorch"%string name nc pretrained 3
          = Return effnet ->
          run (EfficientNetFeatureMapsExtractor effnet) false false
              (probe_array w inc (fst out_size)) = Return feats ->
          make_segm_fpn_efficientnet run hub name fpn_type out_size hc nc
            pretrained inc w = (Raise NotImplementedError, probed))
      /\ (forall effnet new_effnet feats,
          3 < inc -> 0 <= fst out_size ->
          hub "lukemelas/EfficientNet-PyTorch"%string name nc pretrained 3
          = Return effnet ->
          hub "lukemelas/EfficientNet-PyTorch"%string name nc pretrained
              (inc - 3) = Return new_effnet ->
          run (split_backbone effnet new_effnet (inc - 3)) false false
              (probe_array w inc (fst out_size)) = Return feats ->
          make_segm_fpn_efficientnet run hub name fpn_type out_size hc nc
            pretrained inc w = (Raise NotImplementedError, probed)))
  /\ (forall pretrained,
      (forall model w',
          make_segm_fpn_resnet run zoo name fpn_type out_size hc nc
            pretrained inc w <> (Return model, w'))
      /\ (forall f feats,
          0 <= inc -> 0 <= fst out_size ->
          zoo name pretrained inc = Return f ->
          run (Opaque f) false false (probe_array w inc (fst out_size))
          = Return feats ->
          make_segm_fpn_resnet run zoo name fpn_type out_size hc nc
            pretrained inc w = (Raise NotImplementedError, probed))).
Proof.
  intros Hft probed. split; intros pretrained.
  - split; [|split].
    + intros model w' H. unfold make_segm_fpn_efficientnet in H.
      apply mbind_returns in H as (effnet & w1 & _ & H).
      apply mbind_returns in H as (backbone & w2 & _ & H).
      revert H.
      apply (probe_and_assemble_never_returns_invalid
               run backbone fpn_type out_size hc nc inc w2 w' model Hft).
    + intros effnet feats Hle Hinc Hsz Hload Hrun.
      unfold make_segm_fpn_efficientnet, _load_efficientnet, lift.
      unfold mbind at 1. rewrite Hload.
      destruct (Z.ltb_spec 3 inc); [lia|]. unfold mbind at 1, ret at 1.
      apply (probe_and_assemble_invalid run _ fpn_type out_size hc nc inc w
               feats Hft Hinc Hsz Hrun).
    + intros effnet new_effnet feats Hlt Hsz Hload Hload2 Hrun.
      unfold make_segm_fpn_efficientnet, _load_efficientnet, lift.
      unfold mbind at 1. rewrite Hload.
      destruct (Z.ltb_spec 3 inc); [|lia].
      unfold mbind at 1. unfold mbind at 1. rewrite Hload2. unfold ret at 1.
      apply (probe_and_assemble_invalid run _ fpn_type out_size hc nc inc w
               feats Hft ltac:(lia) Hsz Hrun).
  - split.
    + intros model w' H. unfold make_segm_fpn_resnet in H.
      apply mbind_returns in H as (f & w1 & _ & H). revert H.
      apply (probe_and_assemble_never_returns_invalid
               run (Opaque f) fpn_type out_size hc nc inc w1 w' model Hft).
    + intros f feats Hinc Hsz Hload Hrun.
      unfold make_segm_fpn_resnet, lift. unfold mbind at 1. rewrite Hload.
      apply (probe_and_assemble_invalid run _ fpn_type out_size hc nc inc w
               feats Hft Hinc Hsz Hrun).
Qed.

Lemma unknown_fpn_type_raises_witness :
  make_segm_fpn_resnet shape_runtime zoo_with_resnet18 "resnet18" "bifpn"
    (64, 64) 256 5 true 3 (fresh_world 0)
  = (Raise NotImplementedError,
     mkWorld true true (heap (fresh_world 0))
       (calls (fresh_world 0)
        ++ [mkCall false false (probe_array (fresh_world 0) 3 64)])).
Proof.
  exact (proj2 (proj2 (unknown_fpn_type_raises shape_runtime hub_with_b0
                   zoo_with_resnet18 "resnet18" "bifpn" (64, 64) 256 5 3
                   (fresh_world 0) eq_refl) true)
               (forward (EfficientNetFeatureMapsExtractor (three_level_net 3)))
               (map array_of_shape
                    [mkShape 1 64 16 16; mkShape 1 128 8 8; mkShape 1 256 4 4])
               ltac:(lia) ltac:(cbn; lia) eq_refl eq_refl).
Defined.

(** With the reference collaborators both factories return, for each of the
    three selectors, a model whose call on an input of the probed size
    returns an Array of shape (batch, num_classes, 64, 64). *)
Lemma reference_factories_return_running_models :
  (forall fpn_type,
      In fpn_type ["fpn"; "panoptic"; "panet+fpn"]%string ->
      exists model w',
        make_segm_fpn_efficientnet shape_runtime hub_with_b0 "efficientnet_b0"
          fpn_type (64, 64) 256 5 "imagenet" 3 (fresh_world 0)
        = (Return model, w')
        /\ forward model (Tensor (mkShape 2 3 64 64))
           = Ok (Tensor (mkShape 2 5 64 64)))
  /\ (forall fpn_type,
      In fpn_type ["fpn"; "panoptic"; "panet+fpn"]%string ->
      exists model w',
        make_segm_fpn_resnet shape_runtime zoo_with_resnet18 "resnet18"
          fpn_type (64, 64) 256 5 true 3 (fresh_world 0)
        = (Return model, w')
        /\ forward model (Tensor (mkShape 2 3 64 64))
           = Ok (Tensor (mkShape 2 5 64 64))).
Proof.
  split; intros fpn_type [<-|[<-|[<-|[]]]]; do 2 eexists;
    (split; [vm_compute; reflexivity | vm_compute; reflexivity]).
Qed.




(** * Further properties of the code *)

(** ** FPN: what it accepts and what it returns *)

(** X1.  An FPN accepts only a Stream of as many Arrays as it was built for
    levels, each with the channel count of its level; what it returns is
    one Array per level, in the order of the input, with the batch and
    spatial size of that input level and out_channels channels.  A Stream
    of another length is an arity error, a lone Array a type error. *)
Theorem FPN_levels_in_levels_out (shapes : list Shape) (hc oc : Z) :
  (forall v r,
      forward (FPN shapes hc oc) v = Ok r ->
      exists ss,
        v = Stream (map Tensor ss)
        /\ length ss = length shapes
        /\ map channels ss = map channels shapes
        /\ r = Stream (map Tensor (map (with_channels oc) ss)))
  /\ (forall xs,
      length xs <> length shapes ->
      forward (FPN shapes hc oc) (Stream xs) = Err ArityError)
  /\ (forall s, forward (FPN shapes hc oc) (Tensor s) = Err TypeError).
Proof.
  split; [|split].
  - intros v r H.
    destruct (FPN_forward_inv _ _ _ _ _ H) as (ss & -> & Hlen & ->).
    exists ss. repeat split; auto.
    rewrite FPN_unfold, forward_Reverse in H. cbn [rbind] in H. inv_ok.
    apply parallel_inv in Ha as (xs & ys & E & Hl & Hzip & _).
    injection E as <-. rewrite <- map_rev in Hzip.
    apply zip_apply_in_convs_channels in Hzip;
      [|rewrite !length_rev; assumption].
    rewrite !map_rev in Hzip. apply (f_equal (@rev Z)) in Hzip.
    rewrite !rev_involutive in Hzip. assumption.
  - intros xs Hlen. rewrite FPN_unfold, forward_Reverse. cbn [rbind].
    cbn [forward]; unfold_stage.
    rewrite length_map, !length_rev.
    apply Nat.eqb_neq in Hlen. rewrite Hlen. reflexivity.
  - intros s. rewrite FPN_unfold. reflexivity.
Qed.

Lemma FPN_levels_in_levels_out_witness :
  exists ss,
    Stream [Tensor (mkShape 4 64 56 56); Tensor (mkShape 4 128 28 28);
            Tensor (mkShape 4 256 14 14)] = Stream (map Tensor ss)
    /\ length ss = 3%nat
    /\ map channels ss = [64; 128; 256]
    /\ Stream [Tensor (mkShape 4 5 56 56); Tensor (mkShape 4 5 28 28);
               Tensor (mkShape 4 5 14 14)]
       = Stream (map Tensor (map (with_channels 5) ss)).
Proof.
  exact (proj1 (FPN_levels_in_levels_out scenario_shapes 32 5)
               (Stream [Tensor (mkShape 4 64 56 56);
                        Tensor (mkShape 4 128 28 28);
                        Tensor (mkShape 4 256 14 14)])
               (Stream [Tensor (mkShape 4 5 56 56); Tensor (mkShape 4 5 28 28);
                        Tensor (mkShape 4 5 14 14)])
               eq_refl).
Defined.

(** ** PanopticFPN: ladders and their sum *)








(** X3.  PanopticFPN does not compare the length of num_ups with the number
    of levels; it builds one ladder per entry of num_ups.  With a positive
    group count that divides hidden_channels and hidden_channels // 2
    (itself positive) and positive channel counts, the constructor returns
    a model also when the two lengths differ; of that model no call ever
    returns (the Parallel of ladders has another number of branches than
    the Parallel of input convolutions has). *)
Theorem PanopticFPN_num_ups_of_another_length (s0 : Shape) (rest : list Shape)
    (hc oc : Z) (num_ups : list Z) (g : Z) :
  0 < g -> hc mod g = 0 -> (hc / 2) mod g = 0 -> 0 < hc / 2 -> 0 < oc ->
  Forall (fun s => 0 < channels s) (s0 :: rest) ->
  length num_ups <> length (s0 :: rest) ->
  exists m,
    PanopticFPN (s0 :: rest) hc oc (Some num_ups) g = Ok m
    /\ forall x, exists e, forward m x = Err e.
Proof.
  intros Hg Hm Hm2 Hc2 Hoc Hch Hlen. eexists. split.
  { apply PanopticFPN_built; try assumption; try lia.
    revert Hch. apply Forall_impl. intros s Hs. lia. }
  intros x. rewrite forward_Sequential. cbn [chain_apply].
  destruct (forward (Parallel (map (fun s => Conv2d (channels s) hc 1 0)
                                   (s0 :: rest))) x) as [v|e] eqn:E;
    cbn [rbind]; [|eauto].
  apply parallel_inv in E as (xs & ys & -> & Hl & Hzip & ->).
  apply zip_apply_length in Hzip; [|assumption].
  unfold _make_upsamplers.
  change (forward (Parallel ?ms) ?y) with (Parallel_forward forward ms y).
  unfold Parallel_forward. rewrite Hzip, !length_map.
  assert (Hneq : Nat.eqb (length (s0 :: rest)) (length num_ups) = false)
    by (apply Nat.eqb_neq; congruence).
  rewrite Hneq. cbn [rbind]. eauto.
Qed.

Lemma PanopticFPN_num_ups_of_another_length_witness :
  exists m,
    PanopticFPN scenario_shapes 256 5 (Some [0; 1]) 32 = Ok m
    /\ forall x, exists e, forward m x = Err e.
Proof.
  apply (PanopticFPN_num_ups_of_another_length
           (mkShape 1 64 56 56) [mkShape 1 128 28 28; mkShape 1 256 14 14]
           256 5 [0; 1] 32); try reflexivity; try discriminate.
  repeat (apply Forall_cons; [reflexivity|]). apply Forall_nil.
Defined.





(** ** The two-network backbone *)

Lemma add_across_same (feats : list Shape) :
  add_across (map Tensor feats) (map Tensor feats) = Ok (map Tensor feats).
Proof.
  induction feats as [|t feats IH]; cbn [map add_across]; [reflexivity|].
  rewrite add_values_same. cbn [rbind]. rewrite IH. reflexivity.
Qed.

Lemma add_across_ok (f1 : list Shape) :
  forall f2 zs,
    add_across (map Tensor f1) (map Tensor f2) = Ok zs -> f1 = f2.
Proof.
  induction f1 as [|t f1 IH]; intros [|t2 f2] zs H; cbn [map add_across] in H;
    try discriminate; [reflexivity|].
  inv_ok. apply add_values_ok in Ha as (_ & E & _). injection E as ->.
  f_equal. eauto.
Qed.

Lemma split_backbone_unfold (effnet new_effnet : EffNet) (k : Z) (s : Shape) :
  0 <= k -> channels s = 3 + k ->
  forward (split_backbone effnet new_effnet k) (Tensor s)
  = (f1 <- extract_endpoints effnet (with_channels 3 s) ;;
     f2 <- extract_endpoints new_effnet (with_channels k s) ;;
     zs <- add_across (map Tensor f1) (map Tensor f2) ;;
     Ok (Stream zs)).
Proof.
  intros Hk Hc. unfold split_backbone. rewrite forward_Sequential.
  cbn [chain_apply].
  change (forward (SplitTensor ?l) ?x) with (SplitTensor_forward l x).
  unfold SplitTensor_forward. cbn [forallb sum_list map].
  destruct (Z.leb_spec 0 k); [|lia].
  destruct (Z.eqb_spec (3 + (k + 0)) (channels s)); [|lia].
  cbn [andb Z.leb Z.compare rbind].
  change (forward (Parallel ?ms) ?x) with (Parallel_forward forward ms x).
  unfold Parallel_forward. cbn [length Nat.eqb zip_apply].
  change (forward (EfficientNetFeatureMapsExtractor ?e) ?x)
    with (EfficientNetFeatureMapsExtractor_forward e x).
  unfold EfficientNetFeatureMapsExtractor_forward.
  destruct (extract_endpoints effnet (with_channels 3 s)) as [f1|e1];
    cbn [rbind]; [|reflexivity].
  destruct (extract_endpoints new_effnet (with_channels k s)) as [f2|e2];
    cbn [rbind]; [|reflexivity].
  change (forward AddAcross ?x) with (AddAcross_forward x).
  unfold AddAcross_forward.
  destruct (add_across (map Tensor f1) (map Tensor f2)); reflexivity.
Qed.

(** X6.  The backbone built for more than three input channels splits the
    input into its first three channels and the rest, runs one network on
    each and adds the two feature Streams level by level.  It returns
    exactly when the input has 3 + new_channels channels and both networks
    yield feature maps of the same shapes, and then those shapes are what
    it returns. *)
Theorem split_backbone_adds_feature_streams (effnet new_effnet : EffNet)
    (k : Z) (s : Shape) :
  (channels s <> 3 + k ->
   forward (split_backbone effnet new_effnet k) (Tensor s) = Err ShapeError)
  /\ (forall feats,
      0 <= k -> channels s = 3 + k ->
      extract_endpoints effnet (with_channels 3 s) = Ok feats ->
      extract_endpoints new_effnet (with_channels k s) = Ok feats ->
      forward (split_backbone effnet new_effnet k) (Tensor s)
      = Ok (Stream (map Tensor feats)))
  /\ (forall v,
      0 <= k ->
      forward (split_backbone effnet new_effnet k) (Tensor s) = Ok v ->
      exists feats,
        channels s = 3 + k
        /\ extract_endpoints effnet (with_channels 3 s) = Ok feats
        /\ extract_endpoints new_effnet (with_channels k s) = Ok feats
        /\ v = Stream (map Tensor feats)).
Proof.
  assert (Hbad : channels s <> 3 + k ->
                 forward (split_backbone effnet new_effnet k) (Tensor s)
                 = Err ShapeError).
  { intros Hc. unfold split_backbone. rewrite forward_Sequential.
    cbn [chain_apply].
    change (forward (SplitTensor ?l) ?x) with (SplitTensor_forward l x).
    unfold SplitTensor_forward. cbn [forallb sum_list].
    destruct (Z.eqb_spec (3 + (k + 0)) (channels s)); [lia|].
    rewrite andb_false_r. reflexivity. }
  split; [exact Hbad|]. split.
  - intros feats Hk Hc H1 H2. rewrite split_backbone_unfold by assumption.
    rewrite H1, H2. cbn [rbind]. rewrite add_across_same. reflexivity.
  - intros v Hk H.
    destruct (Z.eq_dec (channels s) (3 + k)) as [Hc|Hc];
      [|rewrite (Hbad Hc) in H; discriminate].
    rewrite split_backbone_unfold in H by assumption. inv_ok. subst v.
    pose proof (add_across_ok _ _ _ Ha1) as <-.
    rewrite add_across_same in Ha1. injection Ha1 as <-.
    exists a. auto.
Qed.

Lemma split_backbone_adds_feature_streams_witness :
  forward (split_backbone (three_level_net 3) (three_level_net 2) 2)
          (Tensor (mkShape 1 5 64 64))
  = Ok (Stream [Tensor (mkShape 1 64 16 16); Tensor (mkShape 1 128 8 8);
                Tensor (mkShape 1 256 4 4)]).
Proof.
  apply (proj1 (proj2 (split_backbone_adds_feature_streams
                         (three_level_net 3) (three_level_net 2) 2
                         (mkShape 1 5 64 64)))
               [mkShape 1 64 16 16; mkShape 1 128 8 8; mkShape 1 256 4 4]);
    try reflexivity.
  discriminate.
Defined.

(** ** The factories: what a call does before it returns or raises *)



Lemma probe_and_assemble_ok
    (run : Stage -> bool -> bool -> Array -> Outcome (list Array))
    (backbone : Stage) (fpn_type : string) (out_size : Z * Z)
    (hc nc inc : Z) (w : World) (feats : list Array) (fpn : Stage) :
  0 <= inc -> 0 <= fst out_size ->
  run backbone false false (probe_array w inc (fst out_size)) = Return feats ->
  (forall w', select_fpn fpn_type (map shape_of feats) hc nc w'
              = (Return fpn, w')) ->
  probe_and_assemble run backbone fpn_type out_size hc nc inc w
  = (Return (Sequential [backbone; fpn; Interpolate (Some out_size) None]),
     mkWorld (training w) (grad_enabled w) (heap w)
       (calls w ++ [mkCall false false (probe_array w inc (fst out_size))])).
Proof.
  intros Hinc Hsz Hrun Hsel. unfold probe_and_assemble, mbind.
  rewrite (get_shapes_returns run backbone inc (fst out_size) w feats)
    by assumption.
  rewrite Hsel. reflexivity.
Qed.

Lemma probe_and_assemble_probe_raises
    (run : Stage -> bool -> bool -> Array -> Outcome (list Array))
    (backbone : Stage) (fpn_type : string) (out_size : Z * Z)
    (hc nc inc : Z) (w : World) (e : Exn) :
  0 <= inc -> 0 <= fst out_size ->
  run backbone false false (probe_array w inc (fst out_size)) = Raise e ->
  probe_and_assemble run backbone fpn_type out_size hc nc inc w
  = (Raise e,
     mkWorld false (grad_enabled w) (heap w)
       (calls w ++ [mkCall false false (probe_array w inc (fst out_size))])).
Proof.
  intros Hinc Hsz Hrun. unfold probe_and_assemble, mbind.
  rewrite (get_shapes_raises run backbone inc (fst out_size) w e)
    by assumption.
  reflexivity.
Qed.

Lemma probe_and_assemble_head_raises
    (run : Stage -> bool -> bool -> Array -> Outcome (list Array))
    (backbone : Stage) (fpn_type : string) (out_size : Z * Z)
    (hc nc inc : Z) (w : World) (feats : list Array) (e : Exn) :
  0 <= inc -> 0 <= fst out_size ->
  run backbone false false (probe_array w inc (fst out_size)) = Return feats ->
  (forall w', select_fpn fpn_type (map shape_of feats) hc nc w'
              = (Raise e, w')) ->
  probe_and_assemble run backbone fpn_type out_size hc nc inc w
  = (Raise e,
     mkWorld (training w) (grad_enabled w) (heap w)
       (calls w ++ [mkCall false false (probe_array w inc (fst out_size))])).
Proof.
  intros Hinc Hsz Hrun Hsel. unfold probe_and_assemble, mbind.
  rewrite (get_shapes_returns run backbone inc (fst out_size) w feats)
    by assumption.
  rewrite Hsel. reflexivity.
Qed.

(** X8.  A factory call with one of the three selectors that finds its
    networks and whose probe returns feature maps on which the head can run
    (positive fpn_channels and num_classes, at least one feature map, none
    of them empty, and for 'panoptic' fpn_channels and fpn_channels // 2
    divisible by 32) returns the pipeline backbone, head,
    Interpolate(out_size), with the head the selector names built over the
    probed shapes.  On the way it evaluates the backbone once, on a square
    probe of side out_size[0] with in_channels channels, and it leaves the
    training flag, the autograd mode and the allocator as it found them.
    The efficientnet factory asks the hub for a 3-channel network whatever
    in_channels <= 3 is, and for a second network of in_channels - 3
    channels when in_channels > 3. *)
Theorem factories_return_after_one_probe
    (run : Stage -> bool -> bool -> Array -> Outcome (list Array))
    (hub : string -> string -> Z -> string -> Z -> Outcome EffNet)
    (zoo : string -> bool -> Z -> Outcome (Value -> Result Value))
    (name fpn_type : string) (out_size : Z * Z) (hc nc inc : Z) (w : World)
    (feats : list Array) :
  0 <= inc -> 0 <= fst out_size ->
  valid_fpn_type fpn_type = true ->
  head_runs fpn_type (map shape_of feats) hc nc ->
  let probed :=
    mkWorld (training w) (grad_enabled w) (heap w)
      (calls w ++ [mkCall false false (probe_array w inc (fst out_size))]) in
  exists fpn,
    select_fpn fpn_type (map shape_of feats) hc nc probed
    = (Return fpn, probed)
    /\ (forall pretrained effnet,
        inc <= 3 ->
        hub "lukemelas/EfficientNet-PyTorch"%string name nc pretrained 3
        = Return effnet ->
        run (EfficientNetFeatureMapsExtractor effnet) false false
            (probe_array w inc (fst out_size)) = Return feats ->
        make_segm_fpn_efficientnet run hub name fpn_type out_size hc nc
          pretrained inc w
        = (Return (Sequential [EfficientNetFeatureMapsExtractor effnet; fpn;
                               Interpolate (Some out_size) None]), probed))
    /\ (forall pretrained effnet new_effnet,
        3 < inc ->
        hub "lukemelas/EfficientNet-PyTorch"%string name nc pretrained 3
        = Return effnet ->
        hub "lukemelas/EfficientNet-PyTorch"%string name nc pretrained
            (inc - 3) = Return new_effnet ->
        run (split_backbone effnet new_effnet (inc - 3)) false false
            (probe_array w inc (fst out_size)) = Return feats ->
        make_segm_fpn_efficientnet run hub name fpn_type out_size hc nc
          pretrained inc w
        = (Return (Sequential [split_backbone effnet new_effnet (inc - 3); fpn;
                               Interpolate (Some out_size) None]), probed))
    /\ (forall pretrained f,
        zoo name pretrained inc = Return f ->
        run (Opaque f) false false (probe_array w inc (fst out_size))
        = Return feats ->
        make_segm_fpn_resnet run zoo name fpn_type out_size hc nc pretrained
          inc w
        = (Return (Sequential [Opaque f; fpn;
                               Interpolate (Some out_size) None]), probed)).
Proof.
  intros Hinc Hsz Hv Hr probed.
  destruct (select_fpn_builds fpn_type (map shape_of feats) hc nc Hv Hr)
    as (fpn & Hsel).
  exists fpn. split; [apply Hsel|]. split; [|split].
  - intros pretrained effnet Hle Hload Hrun.
    unfold make_segm_fpn_efficientnet, _load_efficientnet, lift.
    unfold mbind at 1. rewrite Hload.
    destruct (Z.ltb_spec 3 inc); [lia|]. unfold mbind at 1, ret at 1.
    apply (probe_and_assemble_ok run _ fpn_type out_size hc nc inc w feats fpn
             Hinc Hsz Hrun Hsel).
  - intros pretrained effnet new_effnet Hlt Hload Hload2 Hrun.
    unfold make_segm_fpn_efficientnet, _load_efficientnet, lift.
    unfold mbind at 1. rewrite Hload.
    destruct (Z.ltb_spec 3 inc); [|lia].
    unfold mbind at 1. unfold mbind at 1. rewrite Hload2. unfold ret at 1.
    apply (probe_and_assemble_ok run _ fpn_type out_size hc nc inc w feats fpn
             Hinc Hsz Hrun Hsel).
  - intros pretrained f Hload Hrun.
    unfold make_segm_fpn_resnet, lift. unfold mbind at 1. rewrite Hload.
    apply (probe_and_assemble_ok run _ fpn_type out_size hc nc inc w feats fpn
             Hinc Hsz Hrun Hsel).
Qed.

Lemma factories_return_after_one_probe_witness :
  exists fpn,
    make_segm_fpn_efficientnet shape_runtime hub_with_b0 "efficientnet_b0"
      "panoptic" (64, 64) 256 5 "imagenet" 3 (fresh_world 0)
    = (Return (Sequential
                 [EfficientNetFeatureMapsExtractor (three_level_net 3); fpn;
                  Interpolate (Some (64, 64)) None]),
       mkWorld true true (heap (fresh_world 0))
         (calls (fresh_world 0)
          ++ [mkCall false false (probe_array (fresh_world 0) 3 64)])).
Proof.
  destruct (factories_return_after_one_probe shape_runtime hub_with_b0
              zoo_with_resnet18 "efficientnet_b0" "panoptic" (64, 64) 256 5 3
              (fresh_world 0)
              (map array_of_shape
                 [mkShape 1 64 16 16; mkShape 1 128 8 8; mkShape 1 256 4 4])
              ltac:(lia) ltac:(cbn; lia) eq_refl
              ltac:(repeat split; try discriminate;
                    repeat (apply Forall_cons; [repeat split|]);
                    apply Forall_nil))
    as (fpn & _ & H & _).
  exists fpn.
  exact (H "imagenet"%string (three_level_net 3) ltac:(lia) eq_refl eq_refl).
Defined.

(** X9.  When the probing forward pass raises, a factory raises that very
    exception, whatever the selector (the selector has not been looked at
    yet), builds no head, and leaves the backbone with its training flag
    off; the autograd mode is back to what it was.  This holds for the
    single-network backbone of make_segm_fpn_efficientnet (in_channels <=
    3), for its two-network backbone (in_channels > 3) and for
    make_segm_fpn_resnet. *)
Theorem factories_surface_probe_failure
    (run : Stage -> bool -> bool -> Array -> Outcome (list Array))
    (hub : string -> string -> Z -> string -> Z -> Outcome EffNet)
    (zoo : string -> bool -> Z -> Outcome (Value -> Result Value))
    (name fpn_type : string) (out_size : Z * Z) (hc nc inc : Z) (w : World)
    (e : Exn) :
  0 <= inc -> 0 <= fst out_size ->
  let failed :=
    mkWorld false (grad_enabled w) (heap w)
      (calls w ++ [mkCall false false (probe_array w inc (fst out_size))]) in
  (forall pretrained effnet,
      inc <= 3 ->
      hub "lukemelas/EfficientNet-PyTorch"%string name nc pretrained 3
      = Return effnet ->
      run (EfficientNetFeatureMapsExtractor effnet) false false
          (probe_array w inc (fst out_size)) = Raise e ->
      make_segm_fpn_efficientnet run hub name fpn_type out_size hc nc
        pretrained inc w = (Raise e, failed))
  /\ (forall pretrained effnet new_effnet,
      3 < inc ->
      hub "lukemelas/EfficientNet-PyTorch"%string name nc pretrained 3
      = Return effnet ->
      hub "lukemelas/EfficientNet-PyTorch"%string name nc pretrained (inc - 3)
      = Return new_effnet ->
      run (split_backbone effnet new_effnet (inc - 3)) false false
          (probe_array w inc (fst out_size)) = Raise e ->
      make_segm_fpn_efficientnet run hub name fpn_type out_size hc nc
        pretrained inc w = (Raise e, failed))
  /\ (forall pretrained f,
      zoo name pretrained inc = Return f ->
      run (Opaque f) false false (probe_array w inc (fst out_size))
      = Raise e ->
      make_segm_fpn_resnet run zoo name fpn_type out_size hc nc pretrained
        inc w = (Raise e, failed)).
Proof.
  intros Hinc Hsz failed. split; [|split].
  - intros pretrained effnet Hle Hload Hrun.
    unfold make_segm_fpn_efficientnet, _load_efficientnet, lift.
    unfold mbind at 1. rewrite Hload.
    destruct (Z.ltb_spec 3 inc); [lia|]. unfold mbind at 1, ret at 1.
    apply (probe_and_assemble_probe_raises run _ fpn_type out_size hc nc inc
             w e Hinc Hsz Hrun).
  - intros pretrained effnet new_effnet Hlt Hload Hload2 Hrun.
    unfold make_segm_fpn_efficientnet, _load_efficientnet, lift.
    unfold mbind at 1. rewrite Hload.
    destruct (Z.ltb_spec 3 inc); [|lia].
    unfold mbind at 1. unfold mbind at 1. rewrite Hload2. unfold ret at 1.
    apply (probe_and_assemble_probe_raises run _ fpn_type out_size hc nc inc
             w e Hinc Hsz Hrun).
  - intros pretrained f Hload Hrun.
    unfold make_segm_fpn_resnet, lift. unfold mbind at 1. rewrite Hload.
    apply (probe_and_assemble_probe_raises run _ fpn_type out_size hc nc inc
             w e Hinc Hsz Hrun).
Qed.

Lemma factories_surface_probe_failure_witness :
  make_segm_fpn_efficientnet shape_runtime
    (fun _ _ _ _ _ => Return (three_level_net 3)) "efficientnet_b0"
    "fpn" (64, 64) 256 5 "imagenet" 4 (fresh_world 0)
  = (Raise (StageError ShapeError),
     mkWorld false true (heap (fresh_world 0))
       (calls (fresh_world 0)
        ++ [mkCall false false (probe_array (fresh_world 0) 4 64)])).
Proof.
  exact (proj1 (proj2 (factories_surface_probe_failure shape_runtime
                         (fun _ _ _ _ _ => Return (three_level_net 3))
                         zoo_with_resnet18 "efficientnet_b0"
                         "fpn" (64, 64) 256 5 4 (fresh_world 0)
                         (StageError ShapeError) ltac:(lia) ltac:(cbn; lia)))
               "imagenet"%string (three_level_net 3) (three_level_net 3)
               ltac:(lia) eq_refl eq_refl eq_refl).
Defined.

Lemma first_ladder_not_constructible (c : Z) (size : Z * Z) (g : Z) :
  (c / 2) mod g <> 0 -> constructible (_upsample_feat c 0 size g) = false.
Proof.
  intros H. unfold _upsample_feat. rewrite Z.eqb_refl.
  unfold _upsample_once. cbv zeta. rewrite Z.eqb_refl.
  cbn [constructible forallb]. apply Z.eqb_neq in H. rewrite H.
  rewrite ?andb_false_r. cbn [andb]. rewrite ?andb_false_r. reflexivity.
Qed.

Lemma PanopticFPN_not_built (s0 : Shape) (rest : list Shape) (hc oc g : Z) :
  (hc / 2) mod g <> 0 ->
  PanopticFPN (s0 :: rest) hc oc None g = Err ConstructorError.
Proof.
  intros H. unfold PanopticFPN, construct, _make_upsamplers.
  cbn [length seq map Z.of_nat constructible forallb].
  rewrite first_ladder_not_constructible by assumption.
  rewrite ?andb_false_r. cbn [andb]. rewrite ?andb_false_r. reflexivity.
Qed.

(** X13.  With the selector 'panoptic', a probe that returns at least one
    feature map and an fpn_channels whose half is not a multiple of 32, the
    constructor of the first ladder's GroupNorm refuses its arguments: both
    factories raise at construction, after the one probe of the backbone,
    and return no model. *)
Theorem panoptic_head_needs_divisible_channels
    (run : Stage -> bool -> bool -> Array -> Outcome (list Array))
    (hub : string -> string -> Z -> string -> Z -> Outcome EffNet)
    (zoo : string -> bool -> Z -> Outcome (Value -> Result Value))
    (name : string) (out_size : Z * Z) (hc nc inc : Z) (w : World)
    (feats : list Array) :
  0 <= inc -> 0 <= fst out_size ->
  feats <> [] -> (hc / 2) mod 32 <> 0 ->
  let probed :=
    mkWorld (training w) (grad_enabled w) (heap w)
      (calls w ++ [mkCall false false (probe_array w inc (fst out_size))]) in
  (forall pretrained effnet,
      inc <= 3 ->
      hub "lukemelas/EfficientNet-PyTorch"%string name nc pretrained 3
      = Return effnet ->
      run (EfficientNetFeatureMapsExtractor effnet) false false
          (probe_array w inc (fst out_size)) = Return feats ->
      make_segm_fpn_efficientnet run hub name "panoptic" out_size hc nc
        pretrained inc w = (Raise (StageError ConstructorError), probed))
  /\ (forall pretrained effnet new_effnet,
      3 < inc ->
      hub "lukemelas/EfficientNet-PyTorch"%string name nc pretrained 3
      = Return effnet ->
      hub "lukemelas/EfficientNet-PyTorch"%string name nc pretrained (inc - 3)
      = Return new_effnet ->
      run (split_backbone effnet new_effnet (inc - 3)) false false
          (probe_array w inc (fst out_size)) = Return feats ->
      make_segm_fpn_efficientnet run hub name "panoptic" out_size hc nc
        pretrained inc w = (Raise (StageError ConstructorError), probed))
  /\ (forall pretrained f,
      zoo name pretrained inc = Return f ->
      run (Opaque f) false false (probe_array w inc (fst out_size))
      = Return feats ->
      make_segm_fpn_resnet run zoo name "panoptic" out_size hc nc pretrained
        inc w = (Raise (StageError ConstructorError), probed)).
Proof.
  intros Hinc Hsz Hfeats Hdiv probed.
  assert (Hsel : forall w', select_fpn "panoptic" (map shape_of feats) hc nc w'
                            = (Raise (StageError ConstructorError), w')).
  { intros w'. unfold select_fpn. cbn [String.eqb Ascii.eqb Bool.eqb].
    destruct feats as [|a feats']; [contradiction|]. cbn [map].
    rewrite PanopticFPN_not_built by assumption. reflexivity. }
  split; [|split].
  - intros pretrained effnet Hle Hload Hrun.
    unfold make_segm_fpn_efficientnet, _load_efficientnet, lift.
    unfold mbind at 1. rewrite Hload.
    destruct (Z.ltb_spec 3 inc); [lia|]. unfold mbind at 1, ret at 1.
    apply (probe_and_assemble_head_raises run _ "panoptic" out_size hc nc inc
             w feats _ Hinc Hsz Hrun Hsel).
  - intros pretrained effnet new_effnet Hlt Hload Hload2 Hrun.
    unfold make_segm_fpn_efficientnet, _load_efficientnet, lift.
    unfold mbind at 1. rewrite Hload.
    destruct (Z.ltb_spec 3 inc); [|lia].
    unfold mbind at 1. unfold mbind at 1. rewrite Hload2. unfold ret at 1.
    apply (probe_and_assemble_head_raises run _ "panoptic" out_size hc nc inc
             w feats _ Hinc Hsz Hrun Hsel).
  - intros pretrained f Hload Hrun.
    unfold make_segm_fpn_resnet, lift. unfold mbind at 1. rewrite Hload.
    apply (probe_and_assemble_head_raises run _ "panoptic" out_size hc nc inc
             w feats _ Hinc Hsz Hrun Hsel).
Qed.

Lemma panoptic_head_needs_divisible_channels_witness :
  make_segm_fpn_resnet shape_runtime zoo_with_resnet18 "resnet18" "panoptic"
    (64, 64) 48 5 true 3 (fresh_world 0)
  = (Raise (StageError ConstructorError),
     mkWorld true true (heap (fresh_world 0))
       (calls (fresh_world 0)
        ++ [mkCall false false (probe_array (fresh_world 0) 3 64)])).
Proof.
  exact (proj2 (proj2 (panoptic_head_needs_divisible_channels shape_runtime
                         hub_with_b0 zoo_with_resnet18 "resnet18" (64, 64) 48 5
                         3 (fresh_world 0)
                         (map array_of_shape
                            [mkShape 1 64 16 16; mkShape 1 128 8 8;
                             mkShape 1 256 4 4])
                         ltac:(lia) ltac:(cbn; lia) ltac:(discriminate)
                         ltac:(discriminate)))
               true
               (forward (EfficientNetFeatureMapsExtractor (three_level_net 3)))
               eq_refl eq_refl).
Defined.

(** ** Pretrained first-layer weights *)

Lemma slice_prefix {A : Type} (c : Z) (l : list A) :
  0 <= c -> slice 0 c l = firstn (Z.to_nat c) l.
Proof.
  intros Hc. unfold slice, clamp_index.
  destruct (Z.ltb_spec c 0); [lia|]. destruct (Z.ltb_spec 0 0); [lia|].
  rewrite (Z.min_l 0) by lia. cbn [Z.to_nat skipn]. rewrite Z.sub_0_r.
  destruct (Z.le_gt_cases c (Z.of_nat (length l))).
  - rewrite Z.min_l by lia. reflexivity.
  - rewrite Z.min_r by lia. rewrite Nat2Z.id.
    rewrite firstn_all. symmetry. apply firstn_all2. lia.
Qed.

Lemma assign_slice_bounds {A : Type} (lo hi : Z) (l : list A) :
  0 <= lo <= hi -> hi <= Z.of_nat (length l) ->
  Z.to_nat (clamp_index (Z.of_nat (length l)) lo) = Z.to_nat lo
  /\ Z.to_nat (clamp_index (Z.of_nat (length l)) hi
               - clamp_index (Z.of_nat (length l)) lo) = Z.to_nat (hi - lo)
  /\ (Z.to_nat lo + Z.to_nat (hi - lo))%nat = Z.to_nat hi.
Proof.
  intros Hlo Hhi. unfold clamp_index.
  destruct (Z.ltb_spec lo 0); [lia|]. destruct (Z.ltb_spec hi 0); [lia|].
  rewrite !Z.min_l by lia. repeat split; lia.
Qed.

Lemma assign_slice_exact {A : Type} (lo hi : Z) (src l : list A) :
  0 <= lo <= hi -> hi <= Z.of_nat (length l) ->
  Z.of_nat (length src) = hi - lo ->
  assign_slice lo hi src l
  = Ok (firstn (Z.to_nat lo) l ++ src ++ skipn (Z.to_nat hi) l).
Proof.
  intros Hlo Hhi Hsrc. unfold assign_slice.
  destruct (assign_slice_bounds lo hi l Hlo Hhi) as (-> & -> & ->).
  assert (Hcount : Z.to_nat (hi - lo) = length src) by lia.
  rewrite Hcount. rewrite Nat.eqb_refl.
  destruct src as [|p [|q src]]; reflexivity.
Qed.

Lemma assign_slice_broadcast {A : Type} (lo hi : Z) (p : A) (l : list A) :
  0 <= lo <= hi -> hi <= Z.of_nat (length l) ->
  assign_slice lo hi [p] l
  = Ok (firstn (Z.to_nat lo) l ++ repeat p (Z.to_nat (hi - lo))
        ++ skipn (Z.to_nat hi) l).
Proof.
  intros Hlo Hhi. unfold assign_slice.
  destruct (assign_slice_bounds lo hi l Hlo Hhi) as (-> & -> & ->).
  reflexivity.
Qed.

Lemma firstn_tile (old : list Plane) (q c : nat) :
  (c <= 3)%nat -> (3 <= length old)%nat ->
  firstn c old = map (fun j => nth (j mod 3)%nat old []) (seq (3 * q) c).
Proof.
  intros Hc Hold.
  assert (H0 : ((3 * q) mod 3 = 0)%nat)
    by (rewrite Nat.mul_comm; apply Nat.Div0.mod_mul).
  assert (H1 : (S (3 * q) mod 3 = 1)%nat)
    by (replace (S (3 * q)) with (1 + q * 3)%nat by lia;
        rewrite Nat.Div0.mod_add; reflexivity).
  assert (H2 : (S (S (3 * q)) mod 3 = 2)%nat)
    by (replace (S (S (3 * q))) with (2 + q * 3)%nat by lia;
        rewrite Nat.Div0.mod_add; reflexivity).
  destruct old as [|a [|b [|d rest]]]; cbn [length] in Hold; try lia.
  destruct c as [|[|[|[|c]]]]; try lia; cbn [seq map firstn];
    rewrite ?H0, ?H1, ?H2; reflexivity.
Qed.

Lemma copy_pretrained_weights_from (old : list Plane) (i remaining : Z)
    (new : list Plane) :
  (3 <= length old)%nat -> 0 <= i -> (0 < remaining -> i mod 3 = 0) ->
  Z.of_nat (length new) = i + Z.max 0 remaining ->
  copy_pretrained_weights old i remaining new
  = Ok (firstn (Z.to_nat i) new
        ++ map (fun j => nth (j mod 3)%nat old [])
               (seq (Z.to_nat i) (Z.to_nat remaining))).
Proof.
  funelim (copy_pretrained_weights old i remaining new);
    intros Hold Hi Hmod Hlen.
  - clear Heq Heqcall. set (c := Z.min remaining_channels 3) in *.
    assert (Hc : 1 <= c <= 3 /\ c <= remaining_channels) by (unfold c; lia).
    rewrite slice_prefix by lia.
    assert (Hsrc : length (firstn (Z.to_nat c) old) = Z.to_nat c)
      by (rewrite length_firstn; lia).
    rewrite assign_slice_exact by lia.
    assert (Hpre : length (firstn (Z.to_nat i) new) = Z.to_nat i)
      by (rewrite length_firstn; lia).
    rewrite H.
    + f_equal.
      replace (Z.to_nat (i + c))
        with (length (firstn (Z.to_nat i) new ++ firstn (Z.to_nat c) old) + 0)%nat
        by (rewrite length_app; lia).
      rewrite (app_assoc (firstn (Z.to_nat i) new)).
      rewrite firstn_app_2. cbn [firstn]. rewrite app_nil_r.
      rewrite length_app, Hpre, Hsrc, Nat.add_0_r.
      replace (Z.to_nat remaining_channels)
        with (Z.to_nat c + Z.to_nat (remaining_channels - c))%nat by lia.
      rewrite seq_app, map_app, <- app_assoc. do 2 f_equal.
      assert (Hq : Z.to_nat i = (3 * Z.to_nat (i / 3))%nat).
      { pose proof (Hmod ltac:(lia)) as Hm.
        pose proof (Z.div_mod i 3 ltac:(lia)) as Hd.
        pose proof (Z.div_pos i 3 Hi ltac:(lia)). lia. }
      rewrite Hq. apply firstn_tile; lia.
    + assumption.
    + lia.
    + intros Hrest. assert (Hc3 : c = 3) by lia. rewrite Hc3.
      pose proof (Hmod ltac:(lia)) as Hm.
      rewrite <- (Z.mod_add i 1 3) in Hm by lia. exact Hm.
    + rewrite !length_app, Hpre, Hsrc, length_skipn. lia.
  - replace (Z.to_nat remaining_channels) with 0%nat by lia.
    cbn [seq map]. rewrite app_nil_r. rewrite firstn_all2 by lia. reflexivity.
Qed.

Lemma copy_single_plane_from (old : list Plane) (p : Plane)
    (i remaining : Z) (new : list Plane) :
  old = [p] -> 0 <= i -> Z.of_nat (length new) = i + Z.max 0 remaining ->
  copy_pretrained_weights old i remaining new
  = Ok (firstn (Z.to_nat i) new ++ repeat p (Z.to_nat remaining)).
Proof.
  funelim (copy_pretrained_weights old i remaining new); intros -> Hi Hlen.
  - clear Heq Heqcall. set (c := Z.min remaining_channels 3) in *.
    assert (Hc : 1 <= c <= 3 /\ c <= remaining_channels) by (unfold c; lia).
    rewrite slice_prefix by lia.
    assert (Hsrc : firstn (Z.to_nat c) [p] = [p]).
    { destruct (Z.to_nat c) as [|k] eqn:E; [lia|]. cbn [firstn].
      rewrite firstn_nil. reflexivity. }
    rewrite Hsrc. rewrite assign_slice_broadcast by lia.
    assert (Hpre : length (firstn (Z.to_nat i) new) = Z.to_nat i)
      by (rewrite length_firstn; lia).
    replace (i + c - i) with c by lia.
    rewrite (H _ p).
    + f_equal.
      replace (Z.to_nat (i + c))
        with (length (firstn (Z.to_nat i) new ++ repeat p (Z.to_nat c)) + 0)%nat
        by (rewrite length_app, repeat_length; lia).
      rewrite (app_assoc (firstn (Z.to_nat i) new)).
      rewrite firstn_app_2. cbn [firstn]. rewrite app_nil_r.
      rewrite <- app_assoc, <- repeat_app. do 2 f_equal. lia.
    + reflexivity.
    + lia.
    + rewrite !length_app, Hpre, repeat_length, length_skipn. lia.
  - replace (Z.to_nat remaining_channels) with 0%nat by lia.
    cbn [repeat]. rewrite app_nil_r. rewrite firstn_all2 by lia. reflexivity.
Qed.

Lemma copy_short_source_fails (old new : list Plane) (n : Z) :
  length old <> 1%nat -> (length old < 3)%nat -> 3 <= n ->
  Z.of_nat (length new) = n ->
  copy_pretrained_weights old 0 n new = Err ShapeError.
Proof.
  intros H1 H3 Hn Hlen.
  rewrite copy_pretrained_weights_equation_1.
  destruct (Z_gt_dec n 0) as [g|g]; [|lia].
  cbn [copy_pretrained_weights_unfold_clause_1].
  rewrite Z.min_r by lia. rewrite slice_prefix by lia.
  rewrite firstn_all2 by lia.
  unfold assign_slice.
  destruct (assign_slice_bounds 0 (0 + 3) new ltac:(lia) ltac:(lia))
    as (-> & -> & _).
  destruct old as [|a [|b [|d rest]]]; cbn [length] in *; try lia;
    reflexivity.
Qed.

(** X10.  The weight loop of the fusion backbone: with pretrained first-layer
    weights of three or more input planes, plane j of the new layer's weight
    ends up as pretrained plane (j mod 3), for every j below new_channels, and
    nothing of the new layer's own initialisation is left; the loop always
    ends.  A pretrained weight with one input plane is broadcast to every
    plane; one with none or two planes makes the first assignment fail as
    soon as new_channels is three or more. *)
Theorem fusion_weights_tile_pretrained (old new : list Plane)
    (new_channels : Z) :
  Z.of_nat (length new) = new_channels ->
  ((3 <= length old)%nat ->
   copy_pretrained_weights old 0 new_channels new
   = Ok (tiled old (Z.to_nat new_channels)))
  /\ (forall p, old = [p] ->
      copy_pretrained_weights old 0 new_channels new
      = Ok (repeat p (Z.to_nat new_channels)))
  /\ (length old <> 1%nat -> (length old < 3)%nat -> 3 <= new_channels ->
      copy_pretrained_weights old 0 new_channels new = Err ShapeError).
Proof.
  intros Hlen. split; [|split].
  - intros Hold.
    rewrite copy_pretrained_weights_from; try assumption; try lia.
    + reflexivity.
    + intros _. reflexivity.
  - intros p Hp. rewrite (copy_single_plane_from old p) by (assumption || lia).
    reflexivity.
  - intros H1 H3 Hn. apply copy_short_source_fails; assumption.
Qed.

Lemma fusion_weights_tile_pretrained_witness :
  copy_pretrained_weights [[1]; [2]; [3]] 0 7 (repeat [0] 7)
  = Ok [[1]; [2]; [3]; [1]; [2]; [3]; [1]].
Proof.
  exact (proj1 (fusion_weights_tile_pretrained [[1]; [2]; [3]] (repeat [0] 7)
                  7 eq_refl) ltac:(cbn; lia)).
Defined.

(** ** The first layer of the ResNet backbones *)

Lemma conv2d_counts_planes (args : ConvArgs) (planes planes' : list Plane)
    (x : Value) :
  length planes = length planes' ->
  conv2d (mkConvLayer args (W4 planes)) x
  = conv2d (mkConvLayer args (W4 planes')) x.
Proof.
  intros H. unfold conv2d. cbn [weight conv_args]. rewrite H. reflexivity.
Qed.

Lemma tiled_length (old : list Plane) (n : nat) : length (tiled old n) = n.
Proof. unfold tiled. rewrite length_map, length_seq. reflexivity. Qed.

(** X11.  The fusion backbone, when the fresh first layer has new_channels
    input planes and the pretrained one three or more: the second network
    gets the fresh layer with the pretrained planes tiled into its weight,
    whatever [copy_weights] says; at the level of shapes the layer accepts
    and returns what it did before the copy; and the backbone hands the
    fusion extractor the three RGB channels, untouched, together with the
    second network's feature maps of the remaining new_channels channels.
    An input with another channel count than 3 + new_channels is rejected
    by the split. *)
Theorem fusion_backbone_feeds_both_networks
    (nn_Conv2d : Z -> ConvArgs -> Outcome (ConvLayer (list Plane)))
    (fusion_forward : ResNet Weight -> Value -> Result Value)
    (old_resnet new_resnet : ResNet (list Plane)) (new_channels : Z)
    (old_conv new_conv : ConvLayer (list Plane)) (old_conv_args : ConvArgs)
    (copy_weights : bool) :
  nn_Conv2d new_channels old_conv_args = Return new_conv ->
  Z.of_nat (length (weight new_conv)) = new_channels ->
  (3 <= length (weight old_conv))%nat ->
  let second :=
    set_conv1 new_resnet
      (mkConvLayer (conv_args new_conv)
         (W4 (tiled (weight old_conv) (Z.to_nat new_channels)))) in
  let first := set_conv1 old_resnet (as_built (conv1 old_resnet)) in
  let backbone :=
    Sequential [SplitTensor [3; new_channels];
                Parallel [Opaque (fun x => Ok x);
                          ResNetFeatureMapsExtractor second];
                Opaque (fusion_forward first)] in
  make_fusion_resnet_backbone nn_Conv2d fusion_forward old_resnet new_resnet
    new_channels old_conv old_conv_args copy_weights = Return backbone
  /\ (forall x,
        forward (ResNetFeatureMapsExtractor second) x
        = forward (ResNetFeatureMapsExtractor
                     (set_conv1 new_resnet (as_built new_conv))) x)
  /\ (forall s,
        channels s = 3 + new_channels ->
        forward backbone (Tensor s)
        = (feats <- forward (ResNetFeatureMapsExtractor second)
                      (Tensor (with_channels new_channels s)) ;;
           fusion_forward first
             (Stream [Tensor (with_channels 3 s); feats])))
  /\ (forall s,
        channels s <> 3 + new_channels ->
        forward backbone (Tensor s) = Err ShapeError).
Proof.
  intros Hnew Hlen Hold second first backbone.
  split; [|split; [|split]].
  - unfold make_fusion_resnet_backbone, obind. rewrite Hnew.
    rewrite copy_pretrained_weights_from; try assumption; try lia.
    + reflexivity.
    + intros _. reflexivity.
  - intros x. unfold second, ResNetFeatureMapsExtractor, as_built.
    cbn [forward SequentialMultiOutput_forward]. unfold stem, set_conv1.
    cbn [conv1 bn1 relu maxpool layer1 layer2 layer3 layer4].
    rewrite (conv2d_counts_planes _ _ (weight new_conv)); [reflexivity|].
    rewrite tiled_length. lia.
  - intros s Hs. unfold backbone.
    cbn [forward chain_apply]. unfold SplitTensor_forward.
    cbn [forallb sum_list].
    destruct (Z.leb_spec 0 new_channels); [|lia].
    destruct (Z.eqb_spec (3 + (new_channels + 0)) (channels s)); [|lia].
    cbn [andb Z.leb Z.compare rbind map].
    unfold Parallel_forward. cbn [length Nat.eqb zip_apply forward rbind].
    destruct (forward (ResNetFeatureMapsExtractor second) _) as [feats|e'];
      cbn [rbind]; [|reflexivity].
    destruct (fusion_forward first _); reflexivity.
  - intros s Hs. unfold backbone.
    cbn [forward chain_apply]. unfold SplitTensor_forward.
    cbn [forallb sum_list].
    destruct (Z.eqb_spec (3 + (new_channels + 0)) (channels s)); [lia|].
    rewrite !andb_false_r. reflexivity.
Qed.

Lemma fusion_backbone_feeds_both_networks_witness :
  make_fusion_resnet_backbone reference_Conv2d (fun _ x => Ok x)
    reference_resnet reference_resnet 4 (conv1 reference_resnet)
    resnet18_conv1_args true
  = Return
      (Sequential
         [SplitTensor [3; 4];
          Parallel [Opaque (fun x => Ok x);
                    ResNetFeatureMapsExtractor
                      (set_conv1 reference_resnet
                         (mkConvLayer resnet18_conv1_args
                            (W4 [[1]; [2]; [3]; [1]])))];
          Opaque (fun x => Ok x)]).
Proof.
  exact (proj1 (fusion_backbone_feeds_both_networks reference_Conv2d
                  (fun _ x => Ok x) reference_resnet reference_resnet 4
                  (conv1 reference_resnet)
                  (mkConvLayer resnet18_conv1_args (repeat [0] 4))
                  resnet18_conv1_args true eq_refl eq_refl
                  ltac:(cbn; lia))).
Defined.

Lemma shape_runtime_reflects_errors (m : Stage) (training grad : bool)
    (x : Array) (e : Error) :
  forward m (Tensor (shape_of x)) = Err e ->
  shape_runtime m training grad x = Raise (StageError e).
Proof. intros H. unfold shape_runtime. rewrite H. reflexivity. Qed.

Lemma index_plane_in_range (k : Z) (l : list Plane) :
  0 <= k < Z.of_nat (length l) ->
  index_plane k l = Ok (nth (Z.to_nat k) l []).
Proof.
  intros Hk. unfold index_plane.
  destruct (Z.leb_spec (- Z.of_nat (length l)) k); [|lia].
  destruct (Z.ltb_spec k (Z.of_nat (length l))); [|lia].
  destruct (Z.ltb_spec k 0); [lia|]. cbn [andb].
  destruct (nth_error l (Z.to_nat k)) as [p|] eqn:E.
  - rewrite (nth_error_nth _ _ _ E). reflexivity.
  - apply nth_error_None in E. lia.
Qed.

(** X12.  [make_segm_fpn_resnet] with pretrained weights and fewer than three
    input channels: line 326 indexes the pretrained weight by the integer
    in_channels, so the first layer's weight becomes the single input plane
    of that index, a tensor of rank 3.  The backbone built on it returns on
    no input, and the factory, whose probe is the first call of the
    backbone, returns no model for any selector: it raises. *)
Theorem pretrained_backbone_below_three_channels
    (zoo : string -> option (bool -> Outcome (ResNet (list Plane))))
    (nn_Conv2d : Z -> ConvArgs -> Outcome (ConvLayer (list Plane)))
    (fusion_forward : ResNet Weight -> Value -> Result Value)
    (run : Stage -> bool -> bool -> Array -> Outcome (list Array))
    (name fpn_type : string) (out_size : Z * Z) (hc nc in_channels : Z)
    (w : World) :
  in_channels < 3 ->
  (forall m training grad x e,
      forward m (Tensor (shape_of x)) = Err e ->
      run m training grad x = Raise (StageError e)) ->
  let surgery := resnet_first_layer_surgery zoo nn_Conv2d fusion_forward in
  (forall constructor resnet conv,
      zoo name = Some constructor ->
      constructor true = Return resnet ->
      nn_Conv2d in_channels (conv_args (conv1 resnet)) = Return conv ->
      0 <= in_channels < Z.of_nat (length (weight (conv1 resnet))) ->
      surgery name true in_channels
      = Return (forward (ResNetFeatureMapsExtractor
                  (set_conv1 resnet
                     (mkConvLayer (conv_args conv)
                        (W3 (nth (Z.to_nat in_channels)
                                 (weight (conv1 resnet)) [])))))))
  /\ (forall f,
        surgery name true in_channels = Return f ->
        forall x,
          f x = Err (match x with
                     | Tensor _ => ShapeError
                     | Stream _ => TypeError
                     end))
  /\ (exists e w',
        make_segm_fpn_resnet run surgery name fpn_type out_size hc nc true
          in_channels w = (Raise e, w')).
Proof.
  intros Hlt Hrun surgery.
  assert (Hfails : forall f,
            surgery name true in_channels = Return f ->
            forall x,
              f x = Err (match x with
                         | Tensor _ => ShapeError
                         | Stream _ => TypeError
                         end)).
  { intros f Hf x. unfold surgery, resnet_first_layer_surgery in Hf.
    destruct (zoo name) as [constructor|]; [|discriminate].
    unfold obind in Hf.
    destruct (constructor true) as [resnet|]; [|discriminate].
    destruct (Z.eqb_spec in_channels 3); [lia|].
    destruct (Z.ltb_spec 3 in_channels); [lia|]. cbn [negb] in Hf.
    destruct (nn_Conv2d in_channels _) as [conv|]; [|discriminate].
    destruct (outcome_of_result _) as [data|]; [|discriminate].
    injection Hf as <-.
    unfold ResNetFeatureMapsExtractor.
    cbn [forward SequentialMultiOutput_forward]. unfold stem, set_conv1.
    cbn [conv1]. unfold conv2d. cbn [weight].
    destruct x; reflexivity. }
  split; [|split; [exact Hfails|]].
  - intros constructor resnet conv Hzoo Hnet Hconv Hidx.
    unfold surgery, resnet_first_layer_surgery. rewrite Hzoo.
    unfold obind. rewrite Hnet.
    destruct (Z.eqb_spec in_channels 3); [lia|].
    destruct (Z.ltb_spec 3 in_channels); [lia|]. cbn [negb].
    rewrite Hconv. rewrite index_plane_in_range by assumption. reflexivity.
  - unfold make_segm_fpn_resnet, lift. unfold mbind at 1.
    pose proof (Hfails) as Hf'.
    destruct (surgery name true in_channels) as [f|e];
      [|eexists; eexists; reflexivity].
    specialize (Hf' f eq_refl). unfold mbind at 1.
    destruct (Z.le_gt_cases 0 in_channels) as [Hch|Hch];
      [destruct (Z.le_gt_cases 0 (fst out_size)) as [Hsz|Hsz]|].
    + rewrite (get_shapes_raises run (Opaque f) in_channels (fst out_size) w
                 (StageError ShapeError) Hch Hsz).
      * eexists; eexists; reflexivity.
      * apply Hrun. cbn [forward]. apply (Hf' (Tensor _)).
    + rewrite get_shapes_negative by lia. eexists; eexists; reflexivity.
    + rewrite get_shapes_negative by lia. eexists; eexists; reflexivity.
Qed.

Lemma pretrained_backbone_below_three_channels_witness :
  resnet_first_layer_surgery reference_zoo reference_Conv2d (fun _ x => Ok x)
    "resnet18" true 2
  = Return (forward (ResNetFeatureMapsExtractor
              (set_conv1 reference_resnet
                 (mkConvLayer resnet18_conv1_args (W3 [3])))))
  /\ exists e w',
       make_segm_fpn_resnet shape_runtime
         (resnet_first_layer_surgery reference_zoo reference_Conv2d
            (fun _ x => Ok x))
         "resnet18" "fpn" (64, 64) 256 5 true 2 (fresh_world 0)
       = (Raise e, w').
Proof.
  destruct (pretrained_backbone_below_three_channels reference_zoo
              reference_Conv2d (fun _ x => Ok x) shape_runtime
              "resnet18" "fpn" (64, 64) 256 5 2 (fresh_world 0)
              ltac:(lia) shape_runtime_reflects_errors)
    as (Hbuilt & _ & Hraises).
  split; [|exact Hraises].
  exact (Hbuilt (fun _ => Return reference_resnet) reference_resnet
           (mkConvLayer resnet18_conv1_args (repeat [0] 2))
           eq_refl eq_refl eq_refl ltac:(cbn; lia)).
Defined.
